(** * pos-report-system: a shallow embedding of the monthly report pipeline

    The development follows the three Python modules of the repository:
    - [Config]  : config.py, the module namespace built from the ini files;
    - [Extract] : extract.py, backup discovery, table export, month filter;
    - [Report]  : report.py, the sections of the PDF story.
    The aggregation module (analyze.py) is imported by report.py but is not
    among the sources; [Analyze] models it from the specification.

    Python floats are idealised as exact rationals ([Q]); true division is a
    partial operation that raises [ZeroDivisionError] on a zero divisor. *)

From Stdlib Require Import ZArith QArith Lqa String Ascii List Sorted Lia.
From stdpp Require Import base option list strings pretty gmap.

Local Open Scope string_scope.
Local Open Scope Z_scope.

(** ** Python exceptions and fallible results *)

Inductive PyExc : Type :=
| FileNotFoundError (msg : string)
| NotADirectoryError (path : string)
| RuntimeError (msg : string)
| CalledProcessError (returncode : Z) (cmd : list string)
| UnicodeDecodeError
| ParserError
| EmptyDataError
| KeyError (key : string)
| AttributeError (attr : string)
| ValueError (msg : string)
| TypeError (msg : string)
| ZeroDivisionError
| InterpolationSyntaxError (opt section : string)
| InterpolationMissingOptionError (opt section reference : string)
| InterpolationDepthError (opt section : string).

Inductive Result (A : Type) : Type :=
| Ok (a : A)
| Raise (e : PyExc).
Arguments Ok {A} a.
Arguments Raise {A} e.

Definition rbind {A B} (r : Result A) (k : A -> Result B) : Result B :=
  match r with
  | Ok a => k a
  | Raise e => Raise e
  end.

#[global] Instance Result_bind : MBind Result := fun A B k r => rbind r k.
#[global] Instance Result_ret : MRet Result := fun A a => Ok a.

(** Values bound to module-level names. *)
Inductive PyVal : Type :=
| VStr (s : string)
| VInt (n : Z)
| VModule (name : string)
| VConfigParser.

(** A module namespace: attribute access on a missing name raises
    [AttributeError]. *)
Definition getattr (ns : gmap string PyVal) (name : string) : Result PyVal :=
  match ns !! name with
  | Some v => Ok v
  | None => Raise (AttributeError name)
  end.

(** ** config.py *)

Module Config.

(** The contents of settings.ini and config.ini as [ConfigParser.read]
    holds them after a successful read: section name to (option name to
    value), option names already in lower case.  The entry DEFAULT is the
    defaults section.  Texts are ASCII. *)
Definition IniFile : Type := gmap string (gmap string string).

Definition default_section : string := "DEFAULT".

Definition defaults (ini : IniFile) : gmap string string :=
  default ∅ (ini !! default_section).

(** A section proxy: the parser and the name of the section. *)
Record SectionProxy : Type := { parser : IniFile; section_name : string }.

(** [config[name]]: a missing section raises [KeyError]. *)
Definition section (ini : IniFile) (name : string) : Result SectionProxy :=
  if String.eqb name default_section then Ok {| parser := ini; section_name := name |}
  else match ini !! name with
       | Some _ => Ok {| parser := ini; section_name := name |}
       | None => Raise (KeyError name)
       end.

(** The options a section sees: its own, then those of DEFAULT. *)
Definition unify_values (ini : IniFile) (name : string) (opt : string)
  : option string :=
  match default ∅ (ini !! name) !! opt with
  | Some v => Some v
  | None => defaults ini !! opt
  end.

Definition lower_ascii (c : ascii) : ascii :=
  let n := N_of_ascii c in
  if ((65 <=? n) && (n <=? 90))%N then ascii_of_N (n + 32) else c.

(** [optionxform]: option names are compared in lower case. *)
Fixpoint optionxform (s : string) : string :=
  match s with
  | EmptyString => EmptyString
  | String c r => String (lower_ascii c) (optionxform r)
  end.

Fixpoint has_percent (s : string) : bool :=
  match s with
  | EmptyString => false
  | String c r => Ascii.eqb c "%" || has_percent r
  end.

(** Where the scan of a value stands: in plain text, just after a percent
    sign, inside the parentheses of a reference, or after its closing
    parenthesis. *)
Inductive ScanState : Type :=
| Plain
| AfterPercent
| InReference (name : string)
| AfterReference (name : string).

(** The loop of [BasicInterpolation._interpolate_some] over one value:
    [%%] reads as a percent sign, [%(name)s] as the value of option [name]
    (expanded by [expand] when it holds a percent sign), any other use of
    the percent sign is an error. *)
Fixpoint scan (ini : IniFile) (opt section : string)
         (expand : string -> Result string)
         (state : ScanState) (rest : string) : Result string :=
  match rest with
  | EmptyString =>
      match state with
      | Plain => Ok EmptyString
      | AfterPercent | InReference _ | AfterReference _ =>
          Raise (InterpolationSyntaxError opt section)
      end
  | String c rest' =>
      match state with
      | Plain =>
          if Ascii.eqb c "%" then scan ini opt section expand AfterPercent rest'
          else tail ← scan ini opt section expand Plain rest'; Ok (String c tail)
      | AfterPercent =>
          if Ascii.eqb c "%" then
            tail ← scan ini opt section expand Plain rest'; Ok (String "%" tail)
          else if Ascii.eqb c "(" then
            scan ini opt section expand (InReference EmptyString) rest'
          else Raise (InterpolationSyntaxError opt section)
      | InReference name =>
          if Ascii.eqb c ")" then
            match name with
            | EmptyString => Raise (InterpolationSyntaxError opt section)
            | String _ _ => scan ini opt section expand (AfterReference name) rest'
            end
          else scan ini opt section expand (InReference (name ++ String c EmptyString))
                    rest'
      | AfterReference name =>
          if Ascii.eqb c "s" then
            let var := optionxform name in
            match unify_values ini section var with
            | None => Raise (InterpolationMissingOptionError opt section var)
            | Some v =>
                expanded ← (if has_percent v then expand v else Ok v);
                tail ← scan ini opt section expand Plain rest';
                Ok (expanded ++ tail)
            end
          else Raise (InterpolationSyntaxError opt section)
      end
  end.

(** [BasicInterpolation._interpolate_some]; [depth_left] counts the nesting
    levels still allowed, and none left is an error. *)
Fixpoint interpolate_some (ini : IniFile) (opt section : string)
         (depth_left : nat) (value : string) : Result string :=
  match depth_left with
  | O => Raise (InterpolationDepthError opt section)
  | S deeper =>
      scan ini opt section (interpolate_some ini opt section deeper) Plain value
  end.

Definition MAX_INTERPOLATION_DEPTH : nat := 10.

(** [proxy.get(opt, fallback)] *)
Definition get (proxy : SectionProxy) (opt fallback : string) : Result string :=
  let opt := optionxform opt in
  match unify_values (parser proxy) (section_name proxy) opt with
  | None => Ok fallback
  | Some value =>
      interpolate_some (parser proxy) opt (section_name proxy)
                       MAX_INTERPOLATION_DEPTH value
  end.

Definition digit_of (c : ascii) : option Z :=
  let n := Z.of_N (N_of_ascii c) in
  if (48 <=? n) && (n <=? 57) then Some (n - 48) else None.

Fixpoint digits (acc : Z) (s : string) : option Z :=
  match s with
  | EmptyString => Some acc
  | String c r =>
      match digit_of c with
      | Some d => digits (10 * acc + d) r
      | None => None
      end
  end.

Definition is_space (c : ascii) : bool :=
  let n := Z.of_N (N_of_ascii c) in
  ((9 <=? n) && (n <=? 13)) || (n =? 32).

Fixpoint lstrip (s : string) : string :=
  match s with
  | EmptyString => EmptyString
  | String c r => if is_space c then lstrip r else s
  end.

Fixpoint rstrip (s : string) : string :=
  match s with
  | EmptyString => EmptyString
  | String c r =>
      match rstrip r with
      | EmptyString => if is_space c then EmptyString else String c EmptyString
      | String _ _ as r' => String c r'
      end
  end.

(** Decimal digits, where a single underscore may stand between two
    digits. *)
Fixpoint digits_underscores (acc : Z) (after_digit : bool) (s : string) : option Z :=
  match s with
  | EmptyString => if after_digit then Some acc else None
  | String c r =>
      match digit_of c with
      | Some d => digits_underscores (10 * acc + d) true r
      | None =>
          if Ascii.eqb c "_" && after_digit then digits_underscores acc false r
          else None
      end
  end.

(** [int(s)] in base 10 on ASCII text: surrounding white space, an optional
    sign, then the digits; anything else is a [ValueError].  The decimal
    digits of other scripts, which [int] reads too, are outside this
    model. *)
Definition py_int (s : string) : Result Z :=
  let body := rstrip (lstrip s) in
  let '(sign, magnitude) :=
    match body with
    | String c r =>
        if Ascii.eqb c "+" then (1, r)
        else if Ascii.eqb c "-" then (-1, r)
        else (1, body)
    | EmptyString => (1, body)
    end in
  match digits_underscores 0 false magnitude with
  | Some n => Ok (sign * n)
  | None => Raise (ValueError s)
  end.

(** [os.path.join(a, b)] for a relative [b]. *)
Definition os_path_join (a b : string) : string :=
  match String.get (String.length a - 1) a with
  | None => b
  | Some c => if Ascii.eqb c "/" then a ++ b else a ++ "/" ++ b
  end.

(** The names config.py binds at module level, in the order of the file.
    [here] is [os.path.dirname(__file__)]. *)
Definition load (here : string) (ini : IniFile) : Result (gmap string PyVal) :=
  (let ns : gmap string PyVal :=
     <["os" := VModule "os"]> (<["configparser" := VModule "configparser"]> ∅) in
   let ns := <["SETTINGS_FILE" := VStr (os_path_join here "./settings.ini")]> ns in
   let ns := <["CONFIG_FILE" := VStr (os_path_join here "./config.ini")]> ns in
   let ns := <["config" := VConfigParser]> ns in
   path ← section ini "PATH";
   value ← get path "backup_base_path" "./backups";
   let ns := <["BACKUP_BASE_PATH" := VStr value]> ns in
   path ← section ini "PATH";
   value ← get path "daily_reports_path" "./reports/daily";
   let ns := <["DAILY_REPORTS_PATH" := VStr value]> ns in
   path ← section ini "PATH";
   value ← get path "monthly_reports_path" "./reports/monthly";
   let ns := <["MONTHLY_REPORTS_PATH" := VStr value]> ns in
   let ns := <["MDB_FILENAME" := VStr "resturant.mdb"]> ns in
   let ns := <["RESTAURANT_NAME" := VStr "TORNADO RESTAURANT"]> ns in
   let ns := <["REPORT_TITLE" := VStr "Sales Report"]> ns in
   email ← section ini "EMAIL";
   value ← get email "email_from" "example@gmail.com";
   let ns := <["EMAIL_FROM" := VStr value]> ns in
   email ← section ini "EMAIL";
   value ← get email "email_password" "";
   let ns := <["EMAIL_PASSWORD" := VStr value]> ns in
   email ← section ini "EMAIL";
   value ← get email "email_to" "";
   let ns := <["EMAIL_TO" := VStr value]> ns in
   email ← section ini "EMAIL";
   value ← get email "smtp_server" "smtp.gmail.com";
   let ns := <["SMTP_SERVER" := VStr value]> ns in
   email ← section ini "EMAIL";
   text ← get email "smtp_port" "587";
   port ← py_int text;
   let ns := <["SMTP_PORT" := VInt port]> ns in
   Ok ns).

(** An ini file that has both sections and no keys: every setting takes
    its default. *)
Definition defaults_ini : IniFile :=
  <["PATH" := ∅]> (<["EMAIL" := ∅]> ∅).

End Config.

(** Reading a string-valued attribute of the config module. *)
Definition getattr_str (ns : gmap string PyVal) (name : string) : Result string :=
  (v ← getattr ns name;
   match v with
   | VStr s => Ok s
   | VInt _ | VModule _ | VConfigParser => Raise (TypeError name)
   end).

(** ** extract.py *)

Module Extract.

(** *** The outside world: file system and child processes *)

(** A POSIX [pathlib.Path] as its [parts]: the root, when there is one,
    then the components; empty components and single dots are dropped when
    a text is parsed. *)
Definition Path : Type := list string.

(** The pieces of a text between its slashes. *)
Fixpoint split_slash (s : string) : list string :=
  match s with
  | EmptyString => [EmptyString]
  | String c r =>
      if Ascii.eqb c "/" then EmptyString :: split_slash r
      else match split_slash r with
           | piece :: pieces => String c piece :: pieces
           | [] => [String c EmptyString]
           end
  end.

(** The root of a text: two leading slashes are kept, one or more than two
    are one slash. *)
Definition root_of (s : string) : option string :=
  match s with
  | String "/" (String "/" (String "/" _)) => Some "/"
  | String "/" (String "/" _) => Some "//"
  | String "/" _ => Some "/"
  | _ => None
  end.

Definition is_root (part : string) : bool :=
  String.eqb part "/" || String.eqb part "//".

Definition is_component (piece : string) : bool :=
  negb (String.eqb piece "") && negb (String.eqb piece ".").

(** [Path(s)] *)
Definition Path_of (s : string) : Path :=
  (match root_of s with Some r => [r] | None => [] end
   ++ List.filter is_component (split_slash s))%list.

(** [p / child]: an absolute child replaces [p]. *)
Definition joinpath (p : Path) (child : string) : Path :=
  match root_of child with
  | Some _ => Path_of child
  | None => (p ++ Path_of child)%list
  end.

(** [p.name]: the last component, none for a bare root. *)
Definition name (p : Path) : string :=
  match p with
  | [part] => if is_root part then "" else part
  | _ => List.last p ""
  end.

(** [str(p)] *)
Definition str (p : Path) : string :=
  match p with
  | [] => "."
  | part :: rest =>
      if is_root part then part ++ String.concat "/" rest
      else String.concat "/" p
  end.

Inductive ProcOutcome : Type :=
| NoSuchExecutable
| Exited (returncode : Z) (stdout : string).

(** A snapshot of what the module can observe: which paths exist, the
    entry names of a directory ([None] when the path is not a directory),
    which paths are directories, modification times (an integer count of
    clock ticks stands for the float [st_mtime]), and what running a command
    line yields. *)
Record World : Type := {
  fs_exists : Path -> bool;
  fs_listdir : Path -> option (list string);
  fs_is_dir : Path -> bool;
  fs_mtime : Path -> Z;
  proc_run : list string -> ProcOutcome
}.

Inductive Event : Type :=
| FsExists (p : Path)
| FsIterdir (p : Path)
| FsIsDir (p : Path)
| FsStat (p : Path)
| ProcSpawn (argv : list string)
| Print (line : string).

Definition is_fs_read (e : Event) : bool :=
  match e with
  | FsExists _ | FsIterdir _ | FsIsDir _ | FsStat _ => true
  | ProcSpawn _ | Print _ => false
  end.

(** A computation reads the world, leaves a trace of what it did and
    returns or raises. *)
Definition IO (A : Type) : Type := World -> list Event * Result A.

Definition io_ret {A} (a : A) : IO A := fun _ => ([], Ok a).
Definition io_bind {A B} (m : IO A) (k : A -> IO B) : IO B :=
  fun w =>
    match m w with
    | (t, Ok a) => let '(t', r) := k a w in ((t ++ t')%list, r)
    | (t, Raise e) => (t, Raise e)
    end.
#[global] Instance IO_ret : MRet IO := @io_ret.
#[global] Instance IO_bind : MBind IO := fun A B k m => io_bind m k.

Definition raise {A} (e : PyExc) : IO A := fun _ => ([], Raise e).
Definition lift {A} (r : Result A) : IO A := fun _ => ([], r).
Definition trace {A} (m : IO A) (w : World) : list Event := fst (m w).
Definition outcome {A} (m : IO A) (w : World) : Result A := snd (m w).

(** [try: m except FileNotFoundError as e: h] *)
Definition except_FileNotFoundError {A} (m : IO A) (h : string -> IO A) : IO A :=
  fun w =>
    match m w with
    | (t, Raise (FileNotFoundError msg)) => let '(t', r) := h msg w in ((t ++ t')%list, r)
    | other => other
    end.

Definition exists_ (p : Path) : IO bool :=
  fun w => ([FsExists p], Ok (fs_exists w p)).
Definition iterdir (p : Path) : IO (list Path) :=
  fun w => ([FsIterdir p],
            match fs_listdir w p with
            | Some names => Ok (map (joinpath p) names)
            | None => Raise (NotADirectoryError (str p))
            end).
Definition is_dir (p : Path) : IO bool :=
  fun w => ([FsIsDir p], Ok (fs_is_dir w p)).
Definition st_mtime (p : Path) : IO Z :=
  fun w => ([FsStat p], Ok (fs_mtime w p)).
Definition print (line : string) : IO unit :=
  fun _ => ([Print line], Ok tt).
(** [subprocess.check_output(cmd)] *)
Definition check_output (cmd : list string) : IO string :=
  fun w => ([ProcSpawn cmd],
            match proc_run w cmd with
            | NoSuchExecutable => Raise (FileNotFoundError "mdb-export")
            | Exited rc out =>
                if rc =? 0 then Ok out else Raise (CalledProcessError rc cmd)
            end).

(** *** Strings

    Names are byte strings; [upper] maps the ASCII letters and leaves every
    other byte as it is. *)

Definition upper_ascii (c : ascii) : ascii :=
  let n := N_of_ascii c in
  if ((97 <=? n) && (n <=? 122))%N then ascii_of_N (n - 32) else c.

Fixpoint upper (s : string) : string :=
  match s with
  | EmptyString => EmptyString
  | String c r => String (upper_ascii c) (upper r)
  end.

Definition startswith (s pre : string) : bool := String.prefix pre s.

(** *** find_latest_backup *)

(** [[f for f in fs if cond(f)]] with an effectful condition. *)
Fixpoint comprehension (cond : Path -> IO bool) (fs : list Path) : IO (list Path) :=
  match fs with
  | [] => mret []
  | f :: rest =>
      keep ← cond f;
      tail ← comprehension cond rest;
      mret (if keep : bool then f :: tail else tail)
  end.

(** The loop of [max(xs, key=...)]: the running maximum is replaced only
    by a strictly greater key. *)
Fixpoint max_loop (key : Path -> IO Z) (best : Path) (best_key : Z)
         (xs : list Path) : IO Path :=
  match xs with
  | [] => mret best
  | x :: rest =>
      k ← key x;
      if best_key <? k then max_loop key x k rest
      else max_loop key best best_key rest
  end.

Definition max_by (key : Path -> IO Z) (xs : list Path) : IO Path :=
  match xs with
  | [] => raise (ValueError "max() arg is an empty sequence")
  | x :: rest => k ← key x; max_loop key x k rest
  end.

Definition find_latest_backup (config : gmap string PyVal) : IO Path :=
  base ← lift (getattr_str config "BACKUP_BASE_PATH");
  let backup_path := Path_of base in
  found ← exists_ backup_path;
  if negb found then
    base ← lift (getattr_str config "BACKUP_BASE_PATH");
    raise (FileNotFoundError ("Backup path not found: " ++ base))
  else
    entries ← iterdir backup_path;
    backup_folders ←
      comprehension
        (fun f => d ← is_dir f;
                  mret (d && startswith (upper (name f)) "BACKUP"))
        entries;
    match backup_folders with
    | [] => raise (FileNotFoundError "No backup folders found")
    | _ :: _ =>
        latest_backup ← max_by (fun x => st_mtime x) backup_folders;
        mret latest_backup
    end.

(** *** Tables (pandas) *)

Record Timestamp : Type := {
  year : Z; month : Z; day : Z; hour : Z; minute : Z; second : Z
}.

Inductive Cell : Type :=
| CStr (s : string)
| CNum (q : Q)
| CNaN
| CTime (t : Timestamp)
| CNaT.

Definition Series : Type := list Cell.

(** A frame is a header and its rows, in order. *)
Record DataFrame : Type := {
  columns : list string;
  rows : list (list Cell)
}.

Definition well_formed (df : DataFrame) : Prop :=
  Forall (fun r => length r = length (columns df)) (rows df).

Inductive ErrorsMode : Type := errors_raise | errors_coerce.

Inductive CsvFailure : Type := parser_error | empty_data.

(** The library functions the module calls and does not define: bytes to
    text, CSV text to a frame, and pandas' [to_datetime] applied to a whole
    column with its [errors] and [dayfirst] flags.  The parser is taken as
    the library has it: it answers with one entry per element ([None] for
    NaT) or raises; [dayfirst] is a preference that it weighs when it
    settles the format of the column, and [errors='coerce'] turns elements
    that do not parse into NaT without ruling out every exception. *)
Record Lib : Type := {
  decode_utf8 : string -> option string;
  parse_csv : string -> CsvFailure + DataFrame;
  datetimes : ErrorsMode -> bool -> Series -> Result (list (option Timestamp))
}.

Definition decode (lib : Lib) (bytes : string) : Result string :=
  match decode_utf8 lib bytes with
  | Some text => Ok text
  | None => Raise UnicodeDecodeError
  end.

(** [pd.read_csv(StringIO(text))] *)
Definition read_csv (lib : Lib) (text : string) : Result DataFrame :=
  match parse_csv lib text with
  | inr df => Ok df
  | inl parser_error => Raise ParserError
  | inl empty_data => Raise EmptyDataError
  end.

Fixpoint index_of (col : string) (cols : list string) : option nat :=
  match cols with
  | [] => None
  | c :: rest => if String.eqb c col then Some O else S <$> index_of col rest
  end.

Definition column_at (j : nat) (df : DataFrame) : Series :=
  map (fun r => default CNaN (r !! j)) (rows df).

(** [df[col]] *)
Definition getitem (df : DataFrame) (col : string) : Result Series :=
  match index_of col (columns df) with
  | Some j => Ok (column_at j df)
  | None => Raise (KeyError col)
  end.

(** [df[col] = values] *)
Definition setitem (df : DataFrame) (col : string) (values : Series) : Result DataFrame :=
  if negb (length values =? length (rows df))%nat then
    Raise (ValueError "Length of values does not match length of index")
  else
    match index_of col (columns df) with
    | Some j =>
        Ok {| columns := columns df;
              rows := zip_with (fun r v => <[j := v]> r) (rows df) values |}
    | None =>
        Ok {| columns := (columns df ++ [col])%list;
              rows := zip_with (fun r v => (r ++ [v])%list) (rows df) values |}
    end.

Definition cell_of_parsed (o : option Timestamp) : Cell :=
  match o with
  | Some t => CTime t
  | None => CNaT
  end.

(** [pd.to_datetime(values, errors=..., dayfirst=...)] *)
Definition to_datetime (lib : Lib) (values : Series) (errors : ErrorsMode)
           (dayfirst : bool) : Result Series :=
  parsed ← datetimes lib errors dayfirst values;
  Ok (map cell_of_parsed parsed).

(** [values.dt]: defined on datetime-like columns only. *)
Fixpoint dt (values : Series) : Result (list (option Timestamp)) :=
  match values with
  | [] => Ok []
  | c :: rest =>
      match c with
      | CTime t => tail ← dt rest; Ok (Some t :: tail)
      | CNaT => tail ← dt rest; Ok (None :: tail)
      | CStr _ | CNum _ | CNaN =>
          Raise (AttributeError "Can only use .dt accessor with datetimelike values")
      end
  end.

(** [.year] and [.month] of the accessor: [None] stands for NaN. *)
Definition dt_year (ts : list (option Timestamp)) : list (option Z) :=
  map (fmap year) ts.
Definition dt_month (ts : list (option Timestamp)) : list (option Z) :=
  map (fmap month) ts.

(** [values == n], elementwise; NaN equals nothing. *)
Definition eq_scalar (values : list (option Z)) (n : Z) : list bool :=
  map (fun o => match o with Some v => v =? n | None => false end) values.

(** [a & b], elementwise. *)
Definition mask_and (a b : list bool) : list bool := zip_with andb a b.

(** [df[mask]] *)
Definition getitem_mask (df : DataFrame) (mask : list bool) : Result DataFrame :=
  if negb (length mask =? length (rows df))%nat then
    Raise (ValueError "Item wrong length")
  else
    Ok {| columns := columns df;
          rows := map fst (filter (fun rb => snd rb = true) (zip (rows df) mask)) |}.

(** *** export_table *)

Definition export_table (lib : Lib) (mdb_file : Path) (table_name : string)
  : IO DataFrame :=
  output ←
    except_FileNotFoundError
      (let cmd := ["mdb-export"; str mdb_file; table_name] in
       check_output cmd)
      (fun _ =>
         raise (RuntimeError
           "mdb-export not found. Install mdbtools or ensure mdb-export.exe is in PATH."));
  text ← lift (decode lib output);
  df ← lift (read_csv lib text);
  mret df.

(** *** The month filters *)

Definition extract_invoices (lib : Lib) (mdb_file : Path) (year_ month_ : Z)
  : IO DataFrame :=
  df ← export_table lib mdb_file "INVOICE";
  lift (raw ← getitem df "DATE";
        parsed ← to_datetime lib raw errors_coerce true;
        df ← setitem df "DATE" parsed;
        dates ← getitem df "DATE";
        ts ← dt dates;
        let in_year := eq_scalar (dt_year ts) year_ in
        dates ← getitem df "DATE";
        ts ← dt dates;
        let in_month := eq_scalar (dt_month ts) month_ in
        df ← getitem_mask df (mask_and in_year in_month);
        Ok df).

Definition extract_sales (lib : Lib) (mdb_file : Path) (year_ month_ : Z)
  : IO DataFrame :=
  df ← export_table lib mdb_file "SALE";
  lift (raw ← getitem df "DATE";
        parsed ← to_datetime lib raw errors_coerce true;
        df ← setitem df "DATE" parsed;
        dates ← getitem df "DATE";
        ts ← dt dates;
        let in_year := eq_scalar (dt_year ts) year_ in
        dates ← getitem df "DATE";
        ts ← dt dates;
        let in_month := eq_scalar (dt_month ts) month_ in
        df ← getitem_mask df (mask_and in_year in_month);
        Ok df).

(** *** get_monthly_data *)

Record MonthlyData : Type := {
  invoices : DataFrame;
  sales : DataFrame;
  backup_folder : Path
}.

Definition get_monthly_data (config : gmap string PyVal) (lib : Lib)
           (year_ month_ : Z) : IO MonthlyData :=
  backup_folder ← find_latest_backup config;
  _ ← print ("Using backup: " ++ str backup_folder);
  filename ← lift (getattr_str config "MDB_FILENAME");
  let mdb_file := joinpath backup_folder filename in
  found ← exists_ mdb_file;
  if negb found then
    raise (FileNotFoundError ("MDB file not found: " ++ str mdb_file))
  else
    invoices ← extract_invoices lib mdb_file year_ month_;
    sales ← extract_sales lib mdb_file year_ month_;
    _ ← print ("Extracted " ++ pretty (length (rows invoices)) ++ " invoices and "
               ++ pretty (length (rows sales)) ++ " sales records");
    mret {| invoices := invoices; sales := sales; backup_folder := backup_folder |}.

End Extract.

(** ** report.py *)

Module Report.

(** *** Numbers *)

(** [a / b] on floats. *)
Definition truediv (a b : Q) : Result Q :=
  if Qeq_bool b 0 then Raise ZeroDivisionError else Ok (a / b)%Q.

(** [a > b] *)
Definition gt (a b : Q) : bool := negb (Qle_bool a b).

(** [int(x)]: truncation towards zero. *)
Definition int (x : Q) : Z := Z.quot (Qnum x) (Z.pos (Qden x)).

(** *** Report data

    The mapping handed over by the aggregator, with the keys the renderer
    reads.  Dictionaries that are iterated keep their insertion order.
    [growth] is [None] when the key is absent and [Some None] when it is
    bound to Python's [None]. *)

Record Breakdown : Type := {
  amounts : list (string * Q);
  counts : list (string * Z)
}.

Record InvoiceMetrics : Type := {
  total_revenue : Q;
  total_transactions : Z;
  average_transaction : Q;
  total_vat : Q;
  payment_breakdown : Breakdown;
  service_breakdown : Breakdown
}.

Module Item.
Record t : Type := { ITEMS : string; QTY : Q; AMOUNT : Q; PROFIT : Q }.
End Item.

Module Category.
Record t : Type := { CATOGERY : string; QTY : Q; AMOUNT : Q; PROFIT : Q }.
End Category.

Record SalesMetrics : Type := {
  top_items : list Item.t;
  category_performance : list Category.t
}.

Record Period : Type := { start_date : Extract.Timestamp }.

Record ReportData : Type := {
  invoices : InvoiceMetrics;
  sales : SalesMetrics;
  period : Period;
  growth : option (option Q)
}.

(** [d.get(key, fallback)] *)
Fixpoint dict_get {V} (d : list (string * V)) (key : string) (fallback : V) : V :=
  match d with
  | [] => fallback
  | (k, v) :: rest => if String.eqb k key then v else dict_get rest key fallback
  end.

(** *** Flowables

    A piece of text is a sequence of literal fragments and formatted
    values; a value keeps its format specification next to it. *)

Inductive Frag : Type :=
| Lit (s : string)
| FmtQ (spec : string) (v : Q)
| FmtZ (spec : string) (v : Z)
| Strftime (spec : string) (t : Extract.Timestamp).

Definition Text : Type := list Frag.

Inductive Flowable : Type :=
| Paragraph (text : Text) (style : string)
| Spacer (width height : Q)
| Table (data : list (list Text)) (colWidths : list Q).

Definition inch : Q := 72.

(** The body of a [for] loop run over a list, stopping at the first
    exception. *)
Fixpoint for_each {A B} (body : A -> Result B) (xs : list A) : Result (list B) :=
  match xs with
  | [] => Ok []
  | x :: rest =>
      row ← body x;
      tail ← for_each body rest;
      Ok (row :: tail)
  end.

(** [enumerate(xs, start)] *)
Fixpoint enumerate {A} (xs : list A) (start : Z) : list (Z * A) :=
  match xs with
  | [] => []
  | x :: rest => (start, x) :: enumerate rest (start + 1)
  end.

(** *** Sections *)

Definition create_header (config : gmap string PyVal) (report_data : ReportData)
  : Result (list Flowable) :=
  restaurant ← getattr_str config "RESTAURANT_NAME";
  let elements := [Paragraph [Lit restaurant] "CustomTitle"] in
  let period_start := Strftime "%B %Y" (start_date (period report_data)) in
  title ← getattr_str config "REPORT_TITLE";
  let elements :=
    (elements ++ [Paragraph [Lit title; Lit " - "; period_start] "Subtitle"])%list in
  let elements := (elements ++ [Spacer 1 (0.3 * inch)])%list in
  Ok elements.

Definition up_arrow : string := "↑".
Definition down_arrow : string := "↓".

Definition create_summary_section (report_data : ReportData) : list Flowable :=
  let elements := [Paragraph [Lit "<b>EXECUTIVE SUMMARY</b>"] "Heading2"] in
  let elements := (elements ++ [Spacer 1 (0.1 * inch)])%list in
  let inv_metrics := invoices report_data in
  let summary_data :=
    [ [[Lit "Total Revenue"]; [FmtQ ",.2f" (total_revenue inv_metrics)]];
      [[Lit "Total Transactions"]; [FmtZ "," (total_transactions inv_metrics)]];
      [[Lit "Average Transaction"]; [FmtQ ".2f" (average_transaction inv_metrics)]];
      [[Lit "Total VAT Collected"]; [FmtQ ".2f" (total_vat inv_metrics)]] ] in
  let summary_data :=
    match growth report_data with
    | Some (Some growth) =>
        let arrow := if gt growth 0 then up_arrow else down_arrow in
        (summary_data ++
           [ [[Lit "Growth vs Previous Month"];
              [FmtQ "+.1f" growth; Lit "% "; Lit arrow]] ])%list
    | Some None | None => summary_data
    end in
  let summary_table := Table summary_data [3 * inch; 2 * inch]%Q in
  let elements := (elements ++ [summary_table])%list in
  let elements := (elements ++ [Spacer 1 (0.3 * inch)])%list in
  elements.

Definition create_payment_section (report_data : ReportData) : Result (list Flowable) :=
  let elements := [Paragraph [Lit "<b>PAYMENT BREAKDOWN</b>"] "Heading2"] in
  let elements := (elements ++ [Spacer 1 (0.1 * inch)])%list in
  let payment_data :=
    [ [[Lit "Payment Method"]; [Lit "Transactions"]; [Lit "Amount"]; [Lit "Percentage"]] ] in
  let total_amount := total_revenue (invoices report_data) in
  appended ←
    for_each
      (fun '(method, amount) =>
         let count :=
           dict_get (counts (payment_breakdown (invoices report_data))) method 0 in
         percentage ←
           (if gt total_amount 0
            then q ← truediv amount total_amount; Ok (q * 100)%Q
            else Ok 0%Q);
         Ok [[Lit method]; [FmtZ "," count]; [FmtQ ",.2f" amount];
             [FmtQ ".1f" percentage; Lit "%"]])
      (amounts (payment_breakdown (invoices report_data)));
  let payment_data := (payment_data ++ appended)%list in
  let payment_table :=
    Table payment_data [2 * inch; 1.5 * inch; 1.5 * inch; 1 * inch]%Q in
  let elements := (elements ++ [payment_table])%list in
  let elements := (elements ++ [Spacer 1 (0.3 * inch)])%list in
  Ok elements.

Definition create_service_section (report_data : ReportData) : Result (list Flowable) :=
  let elements := [Paragraph [Lit "<b>SERVICE TYPE BREAKDOWN</b>"] "Heading2"] in
  let elements := (elements ++ [Spacer 1 (0.1 * inch)])%list in
  let service_data :=
    [ [[Lit "Service Type"]; [Lit "Orders"]; [Lit "Amount"]; [Lit "Percentage"]] ] in
  let total_amount := total_revenue (invoices report_data) in
  appended ←
    for_each
      (fun '(service, amount) =>
         let count :=
           dict_get (counts (service_breakdown (invoices report_data))) service 0 in
         percentage ←
           (if gt total_amount 0
            then q ← truediv amount total_amount; Ok (q * 100)%Q
            else Ok 0%Q);
         Ok [[Lit service]; [FmtZ "," count]; [FmtQ ",.2f" amount];
             [FmtQ ".1f" percentage; Lit "%"]])
      (amounts (service_breakdown (invoices report_data)));
  let service_data := (service_data ++ appended)%list in
  let service_table :=
    Table service_data [2 * inch; 1.5 * inch; 1.5 * inch; 1 * inch]%Q in
  let elements := (elements ++ [service_table])%list in
  let elements := (elements ++ [Spacer 1 (0.3 * inch)])%list in
  Ok elements.

Definition create_top_items_section (config : gmap string PyVal)
           (report_data : ReportData) : Result (list Flowable) :=
  top_items_count ← getattr config "TOP_ITEMS_COUNT";
  let heading :=
    match top_items_count with
    | VInt n => FmtZ "" n
    | VStr s => Lit s
    | VModule m => Lit m
    | VConfigParser => Lit "<configparser.ConfigParser>"
    end in
  let elements :=
    [Paragraph [Lit "<b>TOP "; heading; Lit " SELLING ITEMS</b>"] "Heading2"] in
  let elements := (elements ++ [Spacer 1 (0.1 * inch)])%list in
  let items_data :=
    [ [[Lit "Rank"]; [Lit "Item"]; [Lit "Qty Sold"]; [Lit "Revenue"]; [Lit "Profit"]] ] in
  let appended :=
    map (fun '(i, item) =>
           [[FmtZ "" i];
            [Lit (Item.ITEMS item)];
            [FmtZ "," (int (Item.QTY item))];
            [FmtQ ",.2f" (Item.AMOUNT item)];
            [FmtQ ",.2f" (Item.PROFIT item)]])
        (enumerate (top_items (sales report_data)) 1) in
  let items_data := (items_data ++ appended)%list in
  let items_table :=
    Table items_data [0.5 * inch; 2.5 * inch; 1 * inch; 1.5 * inch; 1.5 * inch]%Q in
  let elements := (elements ++ [items_table])%list in
  let elements := (elements ++ [Spacer 1 (0.3 * inch)])%list in
  Ok elements.

Definition create_category_section (report_data : ReportData) : Result (list Flowable) :=
  let elements := [Paragraph [Lit "<b>CATEGORY PERFORMANCE</b>"] "Heading2"] in
  let elements := (elements ++ [Spacer 1 (0.1 * inch)])%list in
  let category_data :=
    [ [[Lit "Category"]; [Lit "Items Sold"]; [Lit "Revenue"]; [Lit "Profit"];
       [Lit "Margin %"]] ] in
  appended ←
    for_each
      (fun cat =>
         margin ←
           (if gt (Category.AMOUNT cat) 0
            then q ← truediv (Category.PROFIT cat) (Category.AMOUNT cat);
                 Ok (q * 100)%Q
            else Ok 0%Q);
         Ok [[Lit (Category.CATOGERY cat)];
             [FmtZ "," (int (Category.QTY cat))];
             [FmtQ ",.2f" (Category.AMOUNT cat)];
             [FmtQ ",.2f" (Category.PROFIT cat)];
             [FmtQ ".1f" margin; Lit "%"]])
      (category_performance (sales report_data));
  let category_data := (category_data ++ appended)%list in
  let category_table :=
    Table category_data [2 * inch; 1.2 * inch; 1.5 * inch; 1.5 * inch; 1 * inch]%Q in
  let elements := (elements ++ [category_table])%list in
  let elements := (elements ++ [Spacer 1 (0.3 * inch)])%list in
  Ok elements.

(** The story [generate_pdf] hands to the document builder. *)
Definition generate_pdf (config : gmap string PyVal) (report_data : ReportData)
  : Result (list Flowable) :=
  let elements := [] in
  header ← create_header config report_data;
  let elements := (elements ++ header)%list in
  let elements := (elements ++ create_summary_section report_data)%list in
  payment ← create_payment_section report_data;
  let elements := (elements ++ payment)%list in
  service ← create_service_section report_data;
  let elements := (elements ++ service)%list in
  top ← create_top_items_section config report_data;
  let elements := (elements ++ top)%list in
  category ← create_category_section report_data;
  let elements := (elements ++ category)%list in
  Ok elements.

End Report.

(** ** analyze.py (aggregation)

    report.py imports [generate_report_data] from analyze.py, which is not
    among the sources.  The definitions of this module follow section 4.4
    of the specification. *)

Module Analyze.
Import Report.

(** Modelled from the spec: the Invoice Record (date, payment method,
    service type, VAT amount, total amount); analyze.py is missing. *)
Record Invoice : Type := {
  inv_date : Extract.Timestamp;
  payment_method : string;
  service_type : string;
  vat : Q;
  amount : Q
}.

(** Modelled from the spec: the Sale Record (item name, category,
    quantity, revenue amount, profit amount, date); analyze.py is
    missing. *)
Record Sale : Type := {
  item : string;
  category : string;
  quantity : Q;
  revenue : Q;
  profit : Q;
  sale_date : Extract.Timestamp
}.

Definition sum (xs : list Q) : Q := fold_left Qplus xs 0%Q.

(** Modelled from the spec: [d[key] = d.get(key, init) + delta] on an
    insertion-ordered dictionary; analyze.py is missing. *)
Fixpoint accumulate {V} (add : V -> V -> V) (key : string) (delta : V)
         (d : list (string * V)) : list (string * V) :=
  match d with
  | [] => [(key, delta)]
  | (k, v) :: rest =>
      if String.eqb k key then (k, add v delta) :: rest
      else (k, v) :: accumulate add key delta rest
  end.

(** Modelled from the spec: summed amount and count per key, keys in
    first-seen order; analyze.py is missing. *)
Definition breakdown (key : Invoice -> string) (invoices : list Invoice) : Breakdown :=
  {| amounts := fold_left (fun d i => accumulate Qplus (key i) (amount i) d) invoices [];
     counts := fold_left (fun d i => accumulate Z.add (key i) 1 d) invoices [] |}.

(** Modelled from the spec: [average_transaction] is
    [total_revenue / total_transactions], and 0 when there are no
    transactions; analyze.py is missing. *)
Definition average (total : Q) (transactions : Z) : Result Q :=
  if 0 <? transactions then truediv total (inject_Z transactions) else Ok 0%Q.

(** Modelled from the spec: the invoice-side metrics; analyze.py is
    missing. *)
Definition invoice_metrics (invoices : list Invoice) : Result InvoiceMetrics :=
  let total := sum (map amount invoices) in
  let transactions := Z.of_nat (length invoices) in
  avg ← average total transactions;
  Ok {| total_revenue := total;
        total_transactions := transactions;
        average_transaction := avg;
        total_vat := sum (map vat invoices);
        payment_breakdown := breakdown payment_method invoices;
        service_breakdown := breakdown service_type invoices |}.

(** Modelled from the spec: growth is [None] when prior-month revenue is
    unavailable or zero, otherwise [(current - previous) / previous * 100];
    analyze.py is missing. *)
Definition compute_growth (current : Q) (previous : option Q) : Result (option Q) :=
  match previous with
  | None => Ok None
  | Some prev =>
      if Qeq_bool prev 0 then Ok None
      else q ← truediv (current - prev)%Q prev; Ok (Some (q * 100)%Q)
  end.

(** Modelled from the spec: one sale as a one-row aggregate; analyze.py
    is missing. *)
Definition item_of (s : Sale) : Item.t :=
  {| Item.ITEMS := item s; Item.QTY := quantity s;
     Item.AMOUNT := revenue s; Item.PROFIT := profit s |}.

(** Modelled from the spec: per-item sums of quantity, revenue and
    profit, items in first-encountered order; analyze.py is missing. *)
Fixpoint add_item (s : Sale) (acc : list Item.t) : list Item.t :=
  match acc with
  | [] => [item_of s]
  | a :: rest =>
      if String.eqb (Item.ITEMS a) (item s)
      then {| Item.ITEMS := Item.ITEMS a;
              Item.QTY := (Item.QTY a + quantity s)%Q;
              Item.AMOUNT := (Item.AMOUNT a + revenue s)%Q;
              Item.PROFIT := (Item.PROFIT a + profit s)%Q |} :: rest
      else a :: add_item s rest
  end.

Definition group_items (sales : list Sale) : list Item.t :=
  fold_left (fun acc s => add_item s acc) sales [].

(** Modelled from the spec: a stable sort on revenue, descending (an
    insertion sort; an element is put in front of the first one that does
    not exceed it, so it stays ahead of later equals); analyze.py is
    missing. *)
Fixpoint insert_desc (x : Item.t) (sorted : list Item.t) : list Item.t :=
  match sorted with
  | [] => [x]
  | y :: rest =>
      if Qle_bool (Item.AMOUNT y) (Item.AMOUNT x) then x :: y :: rest
      else y :: insert_desc x rest
  end.

Definition sort_by_revenue_desc (items : list Item.t) : list Item.t :=
  fold_right insert_desc [] items.

(** Modelled from the spec: the top N items by revenue; analyze.py is
    missing. *)
Definition compute_top_items (n : nat) (sales : list Sale) : list Item.t :=
  firstn n (sort_by_revenue_desc (group_items sales)).

(** Modelled from the spec: per-category sums of quantity, revenue and
    profit; analyze.py is missing. *)
Fixpoint add_category (s : Sale) (acc : list Category.t) : list Category.t :=
  match acc with
  | [] => [{| Category.CATOGERY := category s; Category.QTY := quantity s;
              Category.AMOUNT := revenue s; Category.PROFIT := profit s |}]
  | a :: rest =>
      if String.eqb (Category.CATOGERY a) (category s)
      then {| Category.CATOGERY := Category.CATOGERY a;
              Category.QTY := (Category.QTY a + quantity s)%Q;
              Category.AMOUNT := (Category.AMOUNT a + revenue s)%Q;
              Category.PROFIT := (Category.PROFIT a + profit s)%Q |} :: rest
      else a :: add_category s rest
  end.

Definition compute_category_performance (sales : list Sale) : list Category.t :=
  fold_left (fun acc s => add_category s acc) sales [].

(** Modelled from the spec: the Report Data built from the filtered
    invoices and sales of the month, the invoices of the preceding month
    when they are available, and the configured number of top items;
    analyze.py is missing. *)
Definition generate_report_data (top_items_count : nat)
           (start : Extract.Timestamp)
           (invoices : list Invoice) (sales : list Sale)
           (previous_invoices : option (list Invoice)) : Result ReportData :=
  inv ← invoice_metrics invoices;
  g ← compute_growth (total_revenue inv)
        (fmap (fun prev => sum (map amount prev)) previous_invoices);
  Ok {| Report.invoices := inv;
        Report.sales :=
          {| top_items := compute_top_items top_items_count sales;
             category_performance := compute_category_performance sales |};
        period := {| start_date := start |};
        growth := Some g |}.

End Analyze.

(** ** Reference notions used to state the properties *)

Module Spec.
Import Extract.

Definition lower_ascii (c : ascii) : ascii :=
  let n := N_of_ascii c in
  if ((65 <=? n) && (n <=? 90))%N then ascii_of_N (n + 32) else c.

Definition is_upper_letter (c : ascii) : bool :=
  let n := N_of_ascii c in ((65 <=? n) && (n <=? 90))%N.

(** [s] starts with [pre], letter case ignored. *)
Fixpoint starts_with_ignoring_case (pre s : string) : bool :=
  match pre, s with
  | EmptyString, _ => true
  | String _ _, EmptyString => false
  | String a pre', String b s' =>
      Ascii.eqb (lower_ascii a) (lower_ascii b) && starts_with_ignoring_case pre' s'
  end.

(** The immediate subdirectories of [base] whose name starts with
    BACKUP, letter case ignored, in directory order. *)
Definition backup_candidates (w : World) (base : Path) (names : list string)
  : list Path :=
  filter (fun p => fs_is_dir w p = true /\
                   starts_with_ignoring_case "BACKUP" (name p) = true)
         (map (joinpath base) names).

(** The error kinds of the specification, and the kind of each exception
    the modules raise. *)
Inductive ErrorKind : Type :=
| NotFoundError
| ToolMissingError
| ExportError
| ValidationError
| OtherError.

Definition kind (e : PyExc) : ErrorKind :=
  match e with
  | FileNotFoundError _ => NotFoundError
  | RuntimeError _ => ToolMissingError
  | CalledProcessError _ _ | UnicodeDecodeError | ParserError | EmptyDataError =>
      ExportError
  | KeyError _ | ValueError _ => ValidationError
  | NotADirectoryError _ | AttributeError _ | TypeError _ | ZeroDivisionError
  | InterpolationSyntaxError _ _ | InterpolationMissingOptionError _ _ _
  | InterpolationDepthError _ _ =>
      OtherError
  end.

(** A parsed date falls in the target month; an unparseable one never
    does. *)
Definition in_month (y m : Z) (o : option Timestamp) : bool :=
  match o with
  | Some t => (year t =? y) && (month t =? m)
  | None => false
  end.

(** The month filter over a parsed DATE column: pair every row with its
    parsed date, keep the pairs whose date falls in the target month, in
    table order, and store the parsed date in column [j] of the row. *)
Definition month_filter (j : nat) (df : DataFrame)
           (parsed : list (option Timestamp)) (y m : Z) : list (list Cell) :=
  map (fun ro => <[j := cell_of_parsed (snd ro)]> (fst ro))
      (filter (fun ro => in_month y m (snd ro) = true) (zip (rows df) parsed)).

(** The data of the tables of a story, in order. *)
Fixpoint tables (story : list Report.Flowable) : list (list (list Report.Text)) :=
  match story with
  | [] => []
  | Report.Table data _ :: rest => data :: tables rest
  | Report.Paragraph _ _ :: rest | Report.Spacer _ _ :: rest => tables rest
  end.

(** The label of a table row: its first cell. *)
Definition label (row : list Report.Text) : option Report.Text := head row.

(** A ratio in percent, taken to be 0 unless the denominator is
    positive. *)
Definition percent (num den : Q) : Q :=
  if Qlt_le_dec 0 den then (num / den * 100)%Q else 0%Q.

(** A row of a breakdown table: the key, its count, its amount and the
    share of the amount in the total. *)
Definition breakdown_row (totals : Report.Breakdown) (total_amount : Q)
           (entry : string * Q) : list Report.Text :=
  [[Report.Lit (fst entry)];
   [Report.FmtZ "," (Report.dict_get (Report.counts totals) (fst entry) 0)];
   [Report.FmtQ ",.2f" (snd entry)];
   [Report.FmtQ ".1f" (percent (snd entry) total_amount); Report.Lit "%"]].

(** A row of the category table: the category, its sums and its margin. *)
Definition category_row (cat : Report.Category.t) : list Report.Text :=
  [[Report.Lit (Report.Category.CATOGERY cat)];
   [Report.FmtZ "," (Report.int (Report.Category.QTY cat))];
   [Report.FmtQ ",.2f" (Report.Category.AMOUNT cat)];
   [Report.FmtQ ",.2f" (Report.Category.PROFIT cat)];
   [Report.FmtQ ".1f"
      (percent (Report.Category.PROFIT cat) (Report.Category.AMOUNT cat));
    Report.Lit "%"]].

(** The distinct elements of a list, in the order of their first
    occurrence. *)
Fixpoint first_seen (l : list string) : list string :=
  match l with
  | [] => []
  | x :: rest => x :: filter (fun y => y <> x) (first_seen rest)
  end.

(** [a] stands before [b] in [l]. *)
Definition before {A} (a b : A) (l : list A) : Prop := sublist [a; b] l.

(** The sales of one item. *)
Definition sales_of (name : string) (sales : list Analyze.Sale) : list Analyze.Sale :=
  filter (fun s => Analyze.item s = name) sales.

(** An aggregate carries the name of an item that was sold, with the
    summed quantity, revenue and profit of its sales. *)
Definition aggregates (a : Report.Item.t) (sales : list Analyze.Sale) : Prop :=
  let mine := sales_of (Report.Item.ITEMS a) sales in
  mine <> [] /\
  (Report.Item.QTY a == Analyze.sum (map Analyze.quantity mine))%Q /\
  (Report.Item.AMOUNT a == Analyze.sum (map Analyze.revenue mine))%Q /\
  (Report.Item.PROFIT a == Analyze.sum (map Analyze.profit mine))%Q.

(** [a] earns at least the revenue of [b]. *)
Definition at_least (a b : Report.Item.t) : Prop :=
  (Report.Item.AMOUNT b <= Report.Item.AMOUNT a)%Q.

(** [a] earns the revenue [v]. *)
Definition earns (v : Q) (a : Report.Item.t) : Prop :=
  Qeq_bool (Report.Item.AMOUNT a) v = true.

#[global] Instance earns_dec (v : Q) (a : Report.Item.t) : Decision (earns v a) :=
  decide (Qeq_bool (Report.Item.AMOUNT a) v = true).

Definition growth_label : Report.Text := [Report.Lit "Growth vs Previous Month"].

(** The condition of the comprehension in [find_latest_backup]. *)
Definition is_backup (f : Path) : IO bool :=
  d ← is_dir f; mret (d && startswith (upper (name f)) "BACKUP").

(** The event is the start of a child process. *)
Definition is_spawn (e : Extract.Event) : bool :=
  match e with
  | Extract.ProcSpawn _ => true
  | _ => false
  end.

(** The command line of the export of one table. *)
Definition export_command (mdb_file : Extract.Path) (table : string) : list string :=
  ["mdb-export"; Extract.str mdb_file; table].

(** The percentage a table row shows in its last cell. *)
Definition shown_percent (row : list Report.Text) : option Q :=
  match last row with
  | Some [Report.FmtQ _ p; Report.Lit _] => Some p
  | _ => None
  end.


(** A row of the top-items table: rank, name, whole quantity, revenue and
    profit. *)
Definition item_row (rank : Z) (item : Report.Item.t) : list Report.Text :=
  [[Report.FmtZ "" rank];
   [Report.Lit (Report.Item.ITEMS item)];
   [Report.FmtZ "," (Report.int (Report.Item.QTY item))];
   [Report.FmtQ ",.2f" (Report.Item.AMOUNT item)];
   [Report.FmtQ ",.2f" (Report.Item.PROFIT item)]].

(** The names config.py binds at module level. *)
Definition config_names : list string :=
  ["os"; "configparser"; "SETTINGS_FILE"; "CONFIG_FILE"; "config";
   "BACKUP_BASE_PATH"; "DAILY_REPORTS_PATH"; "MONTHLY_REPORTS_PATH";
   "MDB_FILENAME"; "RESTAURANT_NAME"; "REPORT_TITLE";
   "EMAIL_FROM"; "EMAIL_PASSWORD"; "EMAIL_TO"; "SMTP_SERVER"; "SMTP_PORT"].

(** The text of a setting: the entry of its section, else the entry of the
    DEFAULT section, else the fallback. *)
Definition setting (ini : Config.IniFile) (section opt fallback : string) : string :=
  match ini !! section ≫= (fun entries => entries !! opt) with
  | Some v => v
  | None =>
      match ini !! "DEFAULT" ≫= (fun entries => entries !! opt) with
      | Some v => v
      | None => fallback
      end
  end.

(** No value of the ini files holds a percent sign. *)
Definition plain_values (ini : Config.IniFile) : Prop :=
  forall name entries opt v,
    ini !! name = Some entries -> entries !! opt = Some v ->
    Config.has_percent v = false.

(** What both month filters do with the exported table. *)
Definition month_steps (lib : Lib) (df : DataFrame) (y m : Z) : Result DataFrame :=
  raw ← getitem df "DATE";
  parsed ← to_datetime lib raw errors_coerce true;
  df ← setitem df "DATE" parsed;
  dates ← getitem df "DATE";
  ts ← dt dates;
  let in_year := eq_scalar (dt_year ts) y in
  dates ← getitem df "DATE";
  ts ← dt dates;
  let in_month := eq_scalar (dt_month ts) m in
  df ← getitem_mask df (mask_and in_year in_month);
  Ok df.

End Spec.

(** ** Sample inputs *)

Module Sample.
Import Extract.

(** The config module loaded from an ini file without keys. *)
Definition config : gmap string PyVal :=
  match Config.load "." Config.defaults_ini with
  | Ok ns => ns
  | Raise _ => ∅
  end.

Definition root : Path := ["backups"].
Definition october : Path := ["backups"; "backup_2025_10"].
Definition november : Path := ["backups"; "Backup_2025_11"].
Definition notes : Path := ["backups"; "notes"].

(** A backup directory with two snapshots, an unrelated directory and a
    plain file whose name starts with BACKUP. *)
Definition world : World := {|
  fs_exists := fun p => bool_decide (p = root);
  fs_listdir := fun p =>
    if decide (p = root)
    then Some ["backup_2025_10"; "notes"; "Backup_2025_11"; "BACKUP.txt"]
    else None;
  fs_is_dir := fun p => bool_decide (p ∈ [root; october; november; notes]);
  fs_mtime := fun p =>
    if decide (p = october) then 100
    else if decide (p = november) then 200
    else if decide (p = notes) then 300 else 0;
  proc_run := fun argv =>
    match argv with
    | ["mdb-export"; _; "INVOICE"] => Exited 0 "invoice-csv"
    | ["mdb-export"; _; "SALE"] => Exited 3 ""
    | _ => NoSuchExecutable
    end
|}.

(** A world without the export utility. *)
Definition bare_world : World := {|
  fs_exists := fs_exists world;
  fs_listdir := fs_listdir world;
  fs_is_dir := fs_is_dir world;
  fs_mtime := fs_mtime world;
  proc_run := fun _ => NoSuchExecutable
|}.

Definition mdb_file : Path := joinpath november "resturant.mdb".

(** The fields of a text separated by slashes. *)
Fixpoint fields (s : string) : list string :=
  match s with
  | EmptyString => [EmptyString]
  | String c r =>
      if Ascii.eqb c "/" then EmptyString :: fields r
      else match fields r with
           | f :: fs => String c f :: fs
           | [] => [String c EmptyString]
           end
  end.

(** A date parser for texts of the shape 1/2/2025: with [dayfirst] the
    first field is the day, otherwise the month. *)
Definition parse_cell (dayfirst : bool) (c : Cell) : option Timestamp :=
  match c with
  | CStr s =>
      match fields s with
      | [a; b; y] =>
          match Config.digits 0 a, Config.digits 0 b, Config.digits 0 y with
          | Some a, Some b, Some y =>
              let '(d, m) := if dayfirst then (a, b) else (b, a) in
              if (1 <=? d) && (d <=? 31) && (1 <=? m) && (m <=? 12)
              then Some {| year := y; month := m; day := d;
                           hour := 0; minute := 0; second := 0 |}
              else None
          | _, _, _ => None
          end
      | _ => None
      end
  | CNum _ | CNaN | CTime _ | CNaT => None
  end.

Definition invoice_table : DataFrame := {|
  columns := ["ID"; "DATE"; "TOTAL"];
  rows := [ [CNum 1; CStr "01/11/2025"; CNum 100];
            [CNum 2; CStr "15/10/2025"; CNum 50];
            [CNum 3; CStr "not a date"; CNum 70];
            [CNum 4; CStr "02/11/2025"; CNum 200];
            [CNum 5; CStr "11/01/2025"; CNum 30] ]
|}.

Definition lib : Lib := {|
  decode_utf8 := Some;
  parse_csv := fun text =>
    if String.eqb text "invoice-csv" then inr invoice_table
    else if String.eqb text "" then inl empty_data
    else inl parser_error;
  datetimes := fun _ dayfirst col => Ok (map (parse_cell dayfirst) col)
|}.

Definition november_2025 (d : Z) : Timestamp :=
  {| year := 2025; month := 11; day := d; hour := 0; minute := 0; second := 0 |}.

Import Report.

Definition invoice (d : Z) (method : string) (amount vat : Q) : Analyze.Invoice :=
  {| Analyze.inv_date := november_2025 d; Analyze.payment_method := method;
     Analyze.service_type := "DINE IN"; Analyze.vat := vat; Analyze.amount := amount |}.

(** The invoices of the end-to-end scenario of the specification. *)
Definition two_invoices : list Analyze.Invoice :=
  [invoice 1 "CASH" 100 10; invoice 2 "CARD" 200 20].

Definition sale (name : string) (qty revenue profit : Q) : Analyze.Sale :=
  {| Analyze.item := name; Analyze.category := "FOOD"; Analyze.quantity := qty;
     Analyze.revenue := revenue; Analyze.profit := profit;
     Analyze.sale_date := november_2025 1 |}.

(** Three items; TEA and SOUP tie on revenue and TEA is seen first. *)
Definition four_sales : list Analyze.Sale :=
  [sale "TEA" 1 150 50; sale "PIZZA" 1 500 200; sale "SOUP" 3 300 90;
   sale "TEA" 1 150 50].

(** The Report Data of a month without invoices and sales. *)
Definition empty_report : ReportData := {|
  Report.invoices := {|
    total_revenue := 0; total_transactions := 0;
    average_transaction := 0; total_vat := 0;
    payment_breakdown := {| amounts := []; counts := [] |};
    service_breakdown := {| amounts := []; counts := [] |} |};
  Report.sales := {| top_items := []; category_performance := [] |};
  period := {| start_date := november_2025 1 |};
  growth := Some None
|}.

(** A month whose only invoice is a refund, and whose only category was
    sold at a loss. *)
Definition refund_report : ReportData := {|
  Report.invoices := {|
    total_revenue := -100; total_transactions := 1;
    average_transaction := -100; total_vat := 0;
    payment_breakdown := {| amounts := [("CASH", (-100)%Q)]; counts := [("CASH", 1)] |};
    service_breakdown := {| amounts := [("DINE IN", (-100)%Q)]; counts := [("DINE IN", 1)] |} |};
  Report.sales := {|
    top_items := [];
    category_performance :=
      [{| Category.CATOGERY := "DRINKS"; Category.QTY := 1;
          Category.AMOUNT := -100; Category.PROFIT := -100 |}] |};
  period := {| start_date := november_2025 1 |};
  growth := Some (Some 0%Q)
|}.


Definition item_row (name : string) (qty amount profit : Q) : Item.t :=
  {| Item.ITEMS := name; Item.QTY := qty; Item.AMOUNT := amount;
     Item.PROFIT := profit |}.

(** A month of two invoices, CASH 100 and CARD 300, and two items. *)
Definition busy_report : ReportData := {|
  Report.invoices := {|
    total_revenue := 400; total_transactions := 2;
    average_transaction := 200; total_vat := 40;
    payment_breakdown :=
      {| amounts := [("CASH", 100%Q); ("CARD", 300%Q)];
         counts := [("CASH", 1); ("CARD", 1)] |};
    service_breakdown :=
      {| amounts := [("DINE IN", 400%Q)]; counts := [("DINE IN", 2)] |} |};
  Report.sales := {|
    top_items := [item_row "PIZZA" 2 300 120; item_row "TEA" 4 100 60];
    category_performance :=
      [{| Category.CATOGERY := "FOOD"; Category.QTY := 6;
          Category.AMOUNT := 400; Category.PROFIT := 180 |}] |};
  period := {| start_date := november_2025 1 |};
  growth := None
|}.

(** Report Data whose payment counts lack the method that has an amount. *)
Definition uncounted_report : ReportData := {|
  Report.invoices := {|
    total_revenue := 100; total_transactions := 1;
    average_transaction := 100; total_vat := 10;
    payment_breakdown := {| amounts := [("CASH", 100%Q)]; counts := [] |};
    service_breakdown := {| amounts := []; counts := [] |} |};
  Report.sales := {| top_items := []; category_performance := [] |};
  period := {| start_date := november_2025 1 |};
  growth := None
|}.


(** An ini file whose backup path refers to an entry of DEFAULT. *)
Definition interpolated_ini : Config.IniFile :=
  <["DEFAULT" := <["home" := "/srv"]> ∅]>
    (<["PATH" := <["backup_base_path" := "%(home)s/pos"]> ∅]>
       (<["EMAIL" := ∅]> ∅)).

Definition interpolated_config : gmap string PyVal :=
  match Config.load "." interpolated_ini with
  | Ok ns => ns
  | Raise _ => ∅
  end.

(** A world whose backup directory is a plain file. *)
Definition file_world : World := {|
  fs_exists := fs_exists world;
  fs_listdir := fun _ => None;
  fs_is_dir := fun _ => false;
  fs_mtime := fs_mtime world;
  proc_run := proc_run world
|}.

(** A world where the newest snapshot holds the database file. *)
Definition full_world : World := {|
  fs_exists := fun p => bool_decide (p = root) || bool_decide (p = mdb_file);
  fs_listdir := fs_listdir world;
  fs_is_dir := fs_is_dir world;
  fs_mtime := fs_mtime world;
  proc_run := fun argv =>
    match argv with
    | ["mdb-export"; _; _] => Exited 0 "invoice-csv"
    | _ => NoSuchExecutable
    end
|}.

(** The database file is there and the export of SALE fails. *)
Definition failing_world : World := {|
  fs_exists := fs_exists full_world;
  fs_listdir := fs_listdir world;
  fs_is_dir := fs_is_dir world;
  fs_mtime := fs_mtime world;
  proc_run := proc_run world
|}.

(** The database file is there and the export utility is not. *)
Definition toolless_world : World := {|
  fs_exists := fs_exists full_world;
  fs_listdir := fs_listdir world;
  fs_is_dir := fs_is_dir world;
  fs_mtime := fs_mtime world;
  proc_run := fun _ => NoSuchExecutable
|}.

(** A table without a DATE column. *)
Definition undated_table : DataFrame := {|
  columns := ["ID"; "TOTAL"];
  rows := [[CNum 1; CNum 100]]
|}.

(** Two invoices in the month-first notation, the first dated 25 November
    and the second 11 January (or, read day first, 1 November). *)
Definition american_table : DataFrame := {|
  columns := ["ID"; "DATE"; "TOTAL"];
  rows := [ [CNum 1; CStr "11/25/2025"; CNum 100];
            [CNum 2; CStr "01/11/2025"; CNum 50] ]
|}.

(** The order of day and month that a column is read in, settled on its
    first value: the preferred order when that value reads so, the other
    order when it does not. *)
Definition infer_dayfirst (dayfirst : bool) (col : Series) : bool :=
  match col with
  | [] => dayfirst
  | first :: _ =>
      match parse_cell dayfirst first with
      | Some _ => dayfirst
      | None => negb dayfirst
      end
  end.

(** A parser that reads the whole column in the order settled on its
    first value. *)
Definition inferring_lib : Lib := {|
  decode_utf8 := Some;
  parse_csv := fun _ => inr american_table;
  datetimes := fun _ dayfirst col =>
    Ok (map (parse_cell (infer_dayfirst dayfirst col)) col)
|}.

(** Two invoices stamped with different UTC offsets. *)
Definition offsets_table : DataFrame := {|
  columns := ["ID"; "DATE"; "TOTAL"];
  rows := [ [CNum 1; CStr "2025-11-01 10:00:00+01:00"; CNum 100];
            [CNum 2; CStr "2025-11-02 10:00:00+02:00"; CNum 50] ]
|}.

(** The UTC offset a text ends with, if any. *)
Fixpoint offset_of (s : string) : option string :=
  match s with
  | EmptyString => None
  | String c r =>
      if Ascii.eqb c "+" then Some r else offset_of r
  end.

Definition cell_offset (c : Cell) : option string :=
  match c with
  | CStr s => offset_of s
  | CNum _ | CNaN | CTime _ | CNaT => None
  end.

(** A parser that raises on a column whose values carry different UTC
    offsets, whatever [errors] says. *)
Definition offsets_lib : Lib := {|
  decode_utf8 := Some;
  parse_csv := fun _ => inr offsets_table;
  datetimes := fun _ dayfirst col =>
    match omap cell_offset col with
    | first :: others =>
        if forallb (String.eqb first) others
        then Ok (map (parse_cell dayfirst) col)
        else Raise (ValueError "Mixed timezones detected")
    | [] => Ok (map (parse_cell dayfirst) col)
    end
|}.

Definition undated_lib : Lib := {|
  decode_utf8 := Some;
  parse_csv := fun _ => inr undated_table;
  datetimes := fun _ dayfirst col => Ok (map (parse_cell dayfirst) col)
|}.

End Sample.

(** ** Facts about the monads *)

Lemma result_bind_ok {A B} (a : A) (k : A -> Result B) : (Ok a ≫= k) = k a.
Proof. reflexivity. Qed.

(** ** find_latest_backup *)

Section FindLatestBackup.
Import Extract Spec.

Lemma upper_matches_letter (a b : ascii) :
  is_upper_letter a = true ->
  Ascii.eqb a (upper_ascii b) = Ascii.eqb (lower_ascii a) (lower_ascii b).
Proof.
  destruct a as [[] [] [] [] [] [] [] []]; intros Ha;
    try discriminate Ha; clear Ha;
    destruct b as [[] [] [] [] [] [] [] []]; reflexivity.
Qed.

Lemma startswith_upper (pre s : string) :
  forallb is_upper_letter (list_ascii_of_string pre) = true ->
  startswith (upper s) pre = starts_with_ignoring_case pre s.
Proof.
  unfold startswith. revert s.
  induction pre as [|a pre IH]; intros s Hpre; [by destruct s|].
  simpl in Hpre. apply andb_prop in Hpre as [Ha Hpre].
  destruct s as [|b s]; [reflexivity|].
  cbn [upper String.prefix starts_with_ignoring_case].
  rewrite <- (upper_matches_letter a b Ha).
  destruct (ascii_dec a (upper_ascii b)) as [->|Hne].
  - rewrite Ascii.eqb_refl. apply IH, Hpre.
  - apply Ascii.eqb_neq in Hne. rewrite Hne. reflexivity.
Qed.

Variable w : World.

Lemma comprehension_run (fs : list Path) :
  comprehension is_backup fs w =
  (map FsIsDir fs,
   Ok (filter (fun p => fs_is_dir w p = true /\
                        starts_with_ignoring_case "BACKUP" (name p) = true) fs)).
Proof.
  induction fs as [|f fs IH]; [reflexivity|].
  cbn [comprehension]. unfold mbind, IO_bind, io_bind.
  rewrite IH. unfold is_backup, mbind, IO_bind, io_bind, is_dir.
  cbn [mret IO_ret io_ret app map]. rewrite app_nil_r.
  rewrite startswith_upper by reflexivity.
  rewrite filter_cons.
  destruct (fs_is_dir w f); cbn [andb].
  - destruct (starts_with_ignoring_case "BACKUP" (name f)).
    + rewrite decide_True by done. reflexivity.
    + rewrite decide_False by (intros [_ ?]; done). reflexivity.
  - rewrite decide_False by (intros [? _]; done). reflexivity.
Qed.

Lemma max_loop_trace (xs : list Path) (best : Path) (bk : Z) :
  fst (max_loop st_mtime best bk xs w) = map FsStat xs.
Proof.
  revert best bk. induction xs as [|x xs IH]; intros best bk; [reflexivity|].
  cbn [max_loop]. unfold mbind, IO_bind, io_bind. cbn [st_mtime app].
  destruct (bk <? fs_mtime w x).
  - specialize (IH x (fs_mtime w x)).
    destruct (max_loop st_mtime x (fs_mtime w x) xs w). cbn in *. by f_equal.
  - specialize (IH best bk).
    destruct (max_loop st_mtime best bk xs w). cbn in *. by f_equal.
Qed.

(** The loop returns an element of latest modification time, and the
    earliest one among those. *)
Lemma max_loop_result (xs : list Path) (best : Path) :
  exists r pre post,
    snd (max_loop st_mtime best (fs_mtime w best) xs w) = Ok r /\
    best :: xs = (pre ++ r :: post)%list /\
    Forall (fun q => fs_mtime w q < fs_mtime w r) pre /\
    Forall (fun q => fs_mtime w q <= fs_mtime w r) post.
Proof.
  revert best. induction xs as [|x xs IH]; intros best.
  - exists best, [], []. repeat split; constructor.
  - cbn [max_loop]. unfold mbind, IO_bind, io_bind. cbn [st_mtime].
    destruct (Z.ltb_spec (fs_mtime w best) (fs_mtime w x)) as [Hlt|Hge].
    + destruct (IH x) as (r & pre & post & Hr & Hsplit & Hpre & Hpost).
      destruct (max_loop st_mtime x (fs_mtime w x) xs w) as [t res]. cbn in *.
      exists r, (best :: pre), post. rewrite Hsplit. repeat split; try done.
      constructor; [|done].
      destruct pre as [|p pre]; cbn in Hsplit; injection Hsplit as <- _.
      * done.
      * apply Forall_cons in Hpre as [Hp _]. lia.
    + destruct (IH best) as (r & pre & post & Hr & Hsplit & Hpre & Hpost).
      destruct (max_loop st_mtime best (fs_mtime w best) xs w) as [t res]. cbn in *.
      destruct pre as [|p pre]; cbn in Hsplit; injection Hsplit as <- ->.
      * exists best, [], (x :: post). repeat split; try done.
        constructor; [lia|done].
      * apply Forall_cons in Hpre as [Hp Hpre].
        exists r, (best :: x :: pre), post. repeat split; try done.
        constructor; [done|]. constructor; [lia|done].
Qed.

End FindLatestBackup.

Ltac fs_reads :=
  cbn [fst snd];
  repeat first
    [ apply Forall_nil_2
    | apply Forall_cons_2; [reflexivity|]
    | apply Forall_app_2
    | apply List.Forall_map, Forall_true; intros ?; reflexivity ].

(** C7. The backup locator only reads the file system; it raises
    FileNotFoundError when the base directory does not exist or when none of
    its immediate subdirectories has a name starting with BACKUP (letter
    case ignored); otherwise it returns, among exactly those
    subdirectories, the first one of latest modification time. *)
Theorem find_latest_backup_spec (config : gmap string PyVal) (w : Extract.World)
        (base : string) :
  getattr_str config "BACKUP_BASE_PATH" = Ok base ->
  let run := Extract.find_latest_backup config in
  let root := Extract.Path_of base in
  Forall (fun e => Extract.is_fs_read e = true) (Extract.trace run w) /\
  (Extract.fs_exists w root = false ->
   Extract.outcome run w =
   Raise (FileNotFoundError ("Backup path not found: " ++ base))) /\
  (forall names,
     Extract.fs_exists w root = true ->
     Extract.fs_listdir w root = Some names ->
     let candidates := Spec.backup_candidates w root names in
     (candidates = [] ->
      Extract.outcome run w = Raise (FileNotFoundError "No backup folders found")) /\
     (candidates <> [] ->
      exists latest earlier later,
        Extract.outcome run w = Ok latest /\
        candidates = (earlier ++ latest :: later)%list /\
        Forall (fun q => Extract.fs_mtime w q < Extract.fs_mtime w latest) earlier /\
        Forall (fun q => Extract.fs_mtime w q <= Extract.fs_mtime w latest) later)).
Proof.
  intros Hbase run root. subst run. unfold Extract.trace, Extract.outcome.
  remember (Extract.find_latest_backup config w) as res eqn:Hres.
  unfold Extract.find_latest_backup in Hres.
  unfold mbind at 1 2 3 in Hres. unfold Extract.IO_bind, Extract.io_bind in Hres.
  unfold Extract.lift at 1 in Hres. rewrite Hbase in Hres. fold root in Hres.
  cbn [Extract.exists_ app] in Hres.
  destruct (Extract.fs_exists w root) eqn:Hex; cbn [negb] in Hres.
  - unfold mbind at 1 in Hres. unfold Extract.IO_bind, Extract.io_bind in Hres.
    cbn [Extract.iterdir] in Hres.
    destruct (Extract.fs_listdir w root) as [names|] eqn:Hls.
    + unfold mbind at 1 in Hres. unfold Extract.IO_bind, Extract.io_bind in Hres.
      change (Extract.comprehension _ ?fs w)
        with (Extract.comprehension Spec.is_backup fs w) in Hres.
      rewrite comprehension_run in Hres.
      fold (Spec.backup_candidates w root names) in Hres.
      destruct (Spec.backup_candidates w root names) as [|c cs] eqn:Hc.
      * cbn in Hres. subst res. split; [fs_reads|]. split; [done|].
        intros names' _ [= <-]. rewrite Hc. split; [done|congruence].
      * unfold Extract.max_by in Hres.
        unfold mbind, Extract.IO_bind, Extract.io_bind in Hres.
        cbn [Extract.st_mtime] in Hres.
        pose proof (max_loop_trace w cs c (Extract.fs_mtime w c)) as Htr.
        destruct (max_loop_result w cs c) as (r & pre & post & Hr & Hsplit & Hpre & Hpost).
        destruct (Extract.max_loop Extract.st_mtime c (Extract.fs_mtime w c) cs w)
          as [t out]. cbn in Htr, Hr. subst t out.
        cbn [Extract.IO_ret Extract.io_ret mret] in Hres. rewrite !app_nil_r in Hres. subst res.
        split; [fs_reads|]. split; [done|].
        intros names' _ [= <-]. rewrite Hc. split; [done|]. intros _.
        exists r, pre, post. done.
    + cbn in Hres. subst res. split; [fs_reads|]. split; [done|]. intros names' _ [=].
  - unfold mbind, Extract.IO_bind, Extract.io_bind, Extract.lift in Hres.
    cbn in Hres. subst res.
    split; [fs_reads|]. split; [done|]. intros names' [=].
Qed.

Lemma find_latest_backup_spec_witness :
  getattr_str Sample.config "BACKUP_BASE_PATH" = Ok "./backups" /\
  Forall (fun e => Extract.is_fs_read e = true)
         (Extract.trace (Extract.find_latest_backup Sample.config) Sample.world) /\
  exists latest earlier later,
    Extract.outcome (Extract.find_latest_backup Sample.config) Sample.world = Ok latest /\
    [Sample.october; Sample.november] = (earlier ++ latest :: later)%list.
Proof.
  split; [reflexivity|].
  destruct (find_latest_backup_spec Sample.config Sample.world "./backups")
    as (Hreads & _ & Hfound); [reflexivity|].
  split; [exact Hreads|].
  destruct (Hfound ["backup_2025_10"; "notes"; "Backup_2025_11"; "BACKUP.txt"])
    as [_ Hlatest]; [reflexivity|reflexivity|].
  destruct Hlatest as (latest & earlier & later & Hout & Hsplit & _);
    [vm_compute; discriminate|].
  exists latest, earlier, later. split; [exact Hout|exact Hsplit].
Defined.

Example find_latest_backup_sample :
  Extract.find_latest_backup Sample.config Sample.world =
  ([Extract.FsExists Sample.root; Extract.FsIterdir Sample.root;
    Extract.FsIsDir Sample.october; Extract.FsIsDir Sample.notes;
    Extract.FsIsDir Sample.november;
    Extract.FsIsDir ["backups"; "BACKUP.txt"];
    Extract.FsStat Sample.october; Extract.FsStat Sample.november],
   Ok Sample.november).
Proof. vm_compute. reflexivity. Qed.

(** ** export_table *)

Lemma export_table_run (lib : Extract.Lib) (w : Extract.World)
      (mdb_file : Extract.Path) (table_name : string) :
  let cmd := ["mdb-export"; Extract.str mdb_file; table_name] in
  Extract.export_table lib mdb_file table_name w =
  ([Extract.ProcSpawn cmd],
   match Extract.proc_run w cmd with
   | Extract.NoSuchExecutable =>
       Raise (RuntimeError
         "mdb-export not found. Install mdbtools or ensure mdb-export.exe is in PATH.")
   | Extract.Exited rc out =>
       if rc =? 0 then
         match Extract.decode_utf8 lib out with
         | None => Raise UnicodeDecodeError
         | Some text => Extract.read_csv lib text
         end
       else Raise (CalledProcessError rc cmd)
   end).
Proof.
  intros cmd. unfold Extract.export_table.
  unfold mbind at 1. unfold Extract.IO_bind, Extract.io_bind.
  unfold Extract.except_FileNotFoundError, Extract.check_output. fold cmd.
  destruct (Extract.proc_run w cmd) as [|rc out]; [reflexivity|].
  destruct (rc =? 0); [|reflexivity].
  unfold mbind, Extract.IO_bind, Extract.io_bind, Extract.lift, Extract.decode.
  destruct (Extract.decode_utf8 lib out) as [text|]; [|reflexivity].
  destruct (Extract.read_csv lib text); reflexivity.
Qed.

(** C3. export_table raises the tool-missing error (the RuntimeError that
    replaces the FileNotFoundError of the spawn) when the export utility
    cannot be located, an export error when the process exits with a
    non-zero status (CalledProcessError) or when its output cannot be decoded
    or parsed as delimited text, and otherwise returns the parsed table. *)
Theorem export_table_spec (lib : Extract.Lib) (w : Extract.World)
        (mdb_file : Extract.Path) (table_name : string) :
  let cmd := ["mdb-export"; Extract.str mdb_file; table_name] in
  let result := Extract.outcome (Extract.export_table lib mdb_file table_name) w in
  (Extract.proc_run w cmd = Extract.NoSuchExecutable ->
   exists msg, result = Raise (RuntimeError msg) /\
               Spec.kind (RuntimeError msg) = Spec.ToolMissingError) /\
  (forall rc out,
     Extract.proc_run w cmd = Extract.Exited rc out -> rc <> 0 ->
     result = Raise (CalledProcessError rc cmd) /\
     Spec.kind (CalledProcessError rc cmd) = Spec.ExportError) /\
  (forall out,
     Extract.proc_run w cmd = Extract.Exited 0 out ->
     Extract.decode_utf8 lib out = None ->
     result = Raise UnicodeDecodeError /\
     Spec.kind UnicodeDecodeError = Spec.ExportError) /\
  (forall out text failure,
     Extract.proc_run w cmd = Extract.Exited 0 out ->
     Extract.decode_utf8 lib out = Some text ->
     Extract.parse_csv lib text = inl failure ->
     exists e, result = Raise e /\ In e [ParserError; EmptyDataError] /\
               Spec.kind e = Spec.ExportError) /\
  (forall out text df,
     Extract.proc_run w cmd = Extract.Exited 0 out ->
     Extract.decode_utf8 lib out = Some text ->
     Extract.parse_csv lib text = inr df ->
     result = Ok df).
Proof.
  intros cmd result. subst result. unfold Extract.outcome.
  rewrite export_table_run. fold cmd. cbn [snd].
  split; [|split; [|split; [|split]]].
  - intros ->. eexists. split; reflexivity.
  - intros rc out -> Hrc%Z.eqb_neq. rewrite Hrc. split; reflexivity.
  - intros out -> ->. split; reflexivity.
  - intros out text failure -> -> Hcsv. cbn. unfold Extract.read_csv. rewrite Hcsv.
    destruct failure; eexists; (split; [reflexivity|]); cbn; tauto.
  - intros out text df -> -> Hcsv. cbn. unfold Extract.read_csv. rewrite Hcsv. reflexivity.
Qed.

Lemma export_table_spec_witness :
  Extract.outcome (Extract.export_table Sample.lib Sample.mdb_file "INVOICE") Sample.world
  = Ok Sample.invoice_table /\
  Extract.outcome (Extract.export_table Sample.lib Sample.mdb_file "SALE") Sample.world
  = Raise (CalledProcessError 3
             ["mdb-export"; Extract.str Sample.mdb_file; "SALE"]) /\
  exists msg,
    Extract.outcome (Extract.export_table Sample.lib Sample.mdb_file "INVOICE")
                    Sample.bare_world = Raise (RuntimeError msg) /\
    Spec.kind (RuntimeError msg) = Spec.ToolMissingError.
Proof.
  split; [|split].
  - destruct (export_table_spec Sample.lib Sample.world Sample.mdb_file "INVOICE")
      as (_ & _ & _ & _ & Hok).
    apply (Hok "invoice-csv" "invoice-csv"); reflexivity.
  - destruct (export_table_spec Sample.lib Sample.world Sample.mdb_file "SALE")
      as (_ & Hexit & _).
    apply (Hexit 3 ""); [reflexivity|lia].
  - destruct (export_table_spec Sample.lib Sample.bare_world Sample.mdb_file "INVOICE")
      as (Hmissing & _).
    apply Hmissing. reflexivity.
Defined.

(** ** The month filter *)

Section MonthFilter.
Import Extract Spec.

Lemma index_of_lt (col : string) (cols : list string) (j : nat) :
  index_of col cols = Some j -> (j < length cols)%nat.
Proof.
  revert j. induction cols as [|c cols IH]; intros j; [discriminate|].
  cbn [index_of]. destruct (String.eqb c col).
  - intros [= <-]. cbn. lia.
  - destruct (index_of col cols) as [i|]; [|discriminate].
    intros [= <-]. specialize (IH i eq_refl). cbn. lia.
Qed.

Lemma dt_cell_of_parsed (parsed : list (option Timestamp)) :
  dt (map cell_of_parsed parsed) = Ok parsed.
Proof.
  induction parsed as [|[t|] parsed IH]; [reflexivity| |];
    cbn [map cell_of_parsed dt]; rewrite IH; reflexivity.
Qed.

Lemma month_mask (y m : Z) (parsed : list (option Timestamp)) :
  mask_and (eq_scalar (dt_year parsed) y) (eq_scalar (dt_month parsed) m) =
  map (in_month y m) parsed.
Proof.
  unfold mask_and, eq_scalar, dt_year, dt_month.
  induction parsed as [|[t|] parsed IH]; [reflexivity| |]; cbn; rewrite <- IH; reflexivity.
Qed.

Lemma column_after_set (j : nat) (rs : list (list Cell)) (values : Series) :
  Forall (fun r => (j < length r)%nat) rs ->
  length values = length rs ->
  map (fun r => default CNaN (r !! j)) (zip_with (fun r v => <[j := v]> r) rs values)
  = values.
Proof.
  intros Hrs. revert values.
  induction Hrs as [|r rs Hr Hrs IH]; intros [|v values] Hlen;
    try discriminate; [reflexivity|].
  cbn. rewrite list_lookup_insert_eq by exact Hr. cbn. f_equal.
  apply IH. cbn in Hlen. lia.
Qed.

Lemma select_rows {A B} (f : list Cell -> B -> list Cell) (p : A -> bool) (g : A -> B)
      (rs : list (list Cell)) (xs : list A) :
  map fst (filter (fun rb => snd rb = true)
                  (zip (zip_with f rs (map g xs)) (map p xs))) =
  map (fun ro => f (fst ro) (g (snd ro)))
      (filter (fun ro => p (snd ro) = true) (zip rs xs)).
Proof.
  revert xs. induction rs as [|r rs IH]; intros [|x xs]; try reflexivity.
  cbn [map zip_with zip]. destruct (p x) eqn:Hp.
  - rewrite !filter_cons_True by (cbn; done). cbn [map fst snd].
    f_equal. apply IH.
  - rewrite !filter_cons_False by (cbn; congruence). apply IH.
Qed.

Variable lib : Lib.

(** The steps both extractors perform on the exported table, when the
    library answers with one entry per row. *)
Lemma filter_steps (df : DataFrame) (j : nat) (y m : Z)
      (parsed : list (option Timestamp)) :
  well_formed df ->
  index_of "DATE" (columns df) = Some j ->
  datetimes lib errors_coerce true (column_at j df) = Ok parsed ->
  length parsed = length (rows df) ->
  month_steps lib df y m =
  Ok {| columns := columns df; rows := month_filter j df parsed y m |}.
Proof.
  intros Hwf Hj Hparsed Hlen. unfold month_steps.
  pose proof (index_of_lt _ _ _ Hj) as Hlt.
  assert (Hget : getitem df "DATE" = Ok (column_at j df))
    by (unfold getitem; rewrite Hj; reflexivity).
  rewrite Hget, result_bind_ok.
  unfold to_datetime. rewrite Hparsed, !result_bind_ok.
  unfold setitem. rewrite length_map, Hlen, Nat.eqb_refl. cbn [negb].
  rewrite Hj, result_bind_ok.
  assert (Hcol : forall values : Series,
             length values = length (rows df) ->
             getitem {| columns := columns df;
                        rows := zip_with (fun r v => <[j := v]> r) (rows df) values |}
                     "DATE" = Ok values).
  { intros values Hvalues. unfold getitem. cbn [columns]. rewrite Hj.
    unfold column_at. cbn [rows]. rewrite column_after_set; [done| |done].
    eapply Forall_impl; [exact Hwf|]. cbn. intros r ->. exact Hlt. }
  rewrite !Hcol by (rewrite length_map; exact Hlen).
  rewrite result_bind_ok, dt_cell_of_parsed, result_bind_ok.
  rewrite result_bind_ok, dt_cell_of_parsed, result_bind_ok. cbn zeta.
  rewrite month_mask.
  unfold getitem_mask. cbn [rows columns].
  rewrite length_map, length_zip_with, length_map, Hlen, Nat.min_id, Nat.eqb_refl.
  cbn [negb]. rewrite result_bind_ok. f_equal. f_equal.
  unfold month_filter.
  apply (select_rows (fun r v => <[j := v]> r) (in_month y m) cell_of_parsed).
Qed.

(** An exception of the library call ends the filter. *)
Lemma filter_steps_raise (df : DataFrame) (j : nat) (y m : Z) (e : PyExc) :
  index_of "DATE" (columns df) = Some j ->
  datetimes lib errors_coerce true (column_at j df) = Raise e ->
  month_steps lib df y m = Raise e.
Proof.
  intros Hj Hraise. unfold month_steps, getitem. rewrite Hj, result_bind_ok.
  unfold to_datetime. rewrite Hraise. reflexivity.
Qed.

Lemma extract_invoices_steps (w : World) (mdb_file : Path) (y m : Z) (df : DataFrame) :
  outcome (export_table lib mdb_file "INVOICE") w = Ok df ->
  outcome (extract_invoices lib mdb_file y m) w = month_steps lib df y m.
Proof.
  unfold outcome, extract_invoices. intros Hexp.
  unfold mbind at 1. unfold IO_bind, io_bind.
  destruct (export_table lib mdb_file "INVOICE" w) as [t r]. cbn in Hexp. subst r.
  reflexivity.
Qed.

Lemma extract_sales_steps (w : World) (mdb_file : Path) (y m : Z) (df : DataFrame) :
  outcome (export_table lib mdb_file "SALE") w = Ok df ->
  outcome (extract_sales lib mdb_file y m) w = month_steps lib df y m.
Proof.
  unfold outcome, extract_sales. intros Hexp.
  unfold mbind at 1. unfold IO_bind, io_bind.
  destruct (export_table lib mdb_file "SALE" w) as [t r]. cbn in Hexp. subst r.
  reflexivity.
Qed.

Lemma extract_invoices_run (w : World) (mdb_file : Path) (y m : Z)
      (df : DataFrame) (j : nat) (parsed : list (option Timestamp)) :
  outcome (export_table lib mdb_file "INVOICE") w = Ok df ->
  well_formed df ->
  index_of "DATE" (columns df) = Some j ->
  datetimes lib errors_coerce true (column_at j df) = Ok parsed ->
  length parsed = length (rows df) ->
  outcome (extract_invoices lib mdb_file y m) w =
  Ok {| columns := columns df; rows := month_filter j df parsed y m |}.
Proof.
  intros Hexp Hwf Hj Hparsed Hlen.
  rewrite (extract_invoices_steps _ _ _ _ _ Hexp). by apply filter_steps.
Qed.

Lemma extract_sales_run (w : World) (mdb_file : Path) (y m : Z)
      (df : DataFrame) (j : nat) (parsed : list (option Timestamp)) :
  outcome (export_table lib mdb_file "SALE") w = Ok df ->
  well_formed df ->
  index_of "DATE" (columns df) = Some j ->
  datetimes lib errors_coerce true (column_at j df) = Ok parsed ->
  length parsed = length (rows df) ->
  outcome (extract_sales lib mdb_file y m) w =
  Ok {| columns := columns df; rows := month_filter j df parsed y m |}.
Proof.
  intros Hexp Hwf Hj Hparsed Hlen.
  rewrite (extract_sales_steps _ _ _ _ _ Hexp). by apply filter_steps.
Qed.

End MonthFilter.

Section MonthFilterRows.
Import Extract Spec.

Lemma delete_insert_same (j : nat) (v : Cell) (r : list Cell) :
  delete j (<[j := v]> r) = delete j r.
Proof.
  revert j. induction r as [|c r IH]; intros [|j]; try reflexivity.
  cbn. f_equal. apply IH.
Qed.

(** Every kept row carries a parsed date of the target month. *)
Lemma month_filter_dates (df : DataFrame) (j : nat) (y m : Z)
      (parsed : list (option Timestamp)) :
  well_formed df ->
  (j < length (columns df))%nat ->
  Forall (fun r => exists t, r !! j = Some (CTime t) /\ year t = y /\ month t = m)
         (month_filter j df parsed y m).
Proof.
  intros Hwf Hlt. unfold month_filter.
  apply List.Forall_map, Forall_forall. intros [r o] Hin. cbn [fst snd].
  apply list_elem_of_filter in Hin as [Hmonth Hin]. cbn in Hmonth.
  apply elem_of_zip_l in Hin.
  destruct o as [t|]; [|discriminate]. cbn in Hmonth.
  apply andb_prop in Hmonth as [Hy%Z.eqb_eq Hm%Z.eqb_eq].
  exists t. split; [|done]. apply list_lookup_insert_eq.
  unfold well_formed in Hwf. rewrite Forall_forall in Hwf.
  rewrite (Hwf r Hin). exact Hlt.
Qed.

(** Apart from the date cell, the kept rows are rows of the table, in the
    order of the table. *)
Lemma month_filter_order (df : DataFrame) (j : nat) (y m : Z)
      (parsed : list (option Timestamp)) :
  sublist (map (delete j) (month_filter j df parsed y m)) (map (delete j) (rows df)).
Proof.
  unfold month_filter. revert parsed.
  induction (rows df) as [|r rs IH]; intros parsed.
  - cbn. constructor.
  - destruct parsed as [|o parsed]; [cbn; apply sublist_nil_l|].
    cbn [zip zip_with]. rewrite filter_cons. cbn [snd].
    destruct (decide (in_month y m o = true)); cbn [map fst snd].
    + rewrite delete_insert_same. apply sublist_skip, IH.
    + apply sublist_cons, IH.
Qed.

End MonthFilterRows.

(** Without a DATE column the filter stops at the first column read. *)
Lemma extract_invoices_without_date (lib : Extract.Lib) (w : Extract.World)
      (mdb_file : Extract.Path) (y m : Z) (df : Extract.DataFrame) :
  Extract.outcome (Extract.export_table lib mdb_file "INVOICE") w = Ok df ->
  Extract.index_of "DATE" (Extract.columns df) = None ->
  Extract.outcome (Extract.extract_invoices lib mdb_file y m) w = Raise (KeyError "DATE").
Proof.
  unfold Extract.outcome, Extract.extract_invoices. intros Hexp Hnone.
  unfold mbind at 1. unfold Extract.IO_bind, Extract.io_bind.
  destruct (Extract.export_table lib mdb_file "INVOICE" w) as [t r].
  cbn in Hexp. subst r. unfold Extract.lift, Extract.getitem. rewrite Hnone. reflexivity.
Qed.

(** C1. Both month filters hand the DATE column of the exported table to
    pandas' [to_datetime] with [errors='coerce'] and [dayfirst=True] and
    keep what the library answers.  When the library raises, the filter
    raises the same exception.  When it answers with one entry per row,
    the filter returns, with the columns of the table, the rows whose
    entry has the target year and month, the entry in their DATE cell, in
    the order of the table; rows whose entry is NaT are left out.  The
    day-first reading of a row's own date is not what decides: the
    library's entry for it is. *)
Theorem month_filter_spec (lib : Extract.Lib) (w : Extract.World)
        (mdb_file : Extract.Path) (y m : Z)
        (extract : Extract.Lib -> Extract.Path -> Z -> Z -> Extract.IO Extract.DataFrame)
        (table : string) (df : Extract.DataFrame) (j : nat) :
  In (extract, table)
     [(Extract.extract_invoices, "INVOICE"); (Extract.extract_sales, "SALE")] ->
  Extract.outcome (Extract.export_table lib mdb_file table) w = Ok df ->
  Extract.well_formed df ->
  Extract.index_of "DATE" (Extract.columns df) = Some j ->
  (forall e,
      Extract.datetimes lib Extract.errors_coerce true (Extract.column_at j df)
      = Raise e ->
      Extract.outcome (extract lib mdb_file y m) w = Raise e) /\
  (forall parsed,
      Extract.datetimes lib Extract.errors_coerce true (Extract.column_at j df)
      = Ok parsed ->
      length parsed = length (Extract.rows df) ->
      exists out,
        Extract.outcome (extract lib mdb_file y m) w = Ok out /\
        Extract.columns out = Extract.columns df /\
        Extract.rows out = Spec.month_filter j df parsed y m /\
        Forall (fun r => exists t, r !! j = Some (Extract.CTime t) /\
                                   Extract.year t = y /\ Extract.month t = m)
               (Extract.rows out) /\
        sublist (map (delete j) (Extract.rows out))
                (map (delete j) (Extract.rows df))).
Proof.
  intros Hin Hexp Hwf Hj. split.
  - intros e Hraise. destruct Hin as [[= <- <-]|[[= <- <-]|[]]].
    + rewrite (extract_invoices_steps _ _ _ _ _ _ Hexp).
      by eapply filter_steps_raise.
    + rewrite (extract_sales_steps _ _ _ _ _ _ Hexp).
      by eapply filter_steps_raise.
  - intros parsed Hparsed Hlen.
    exists {| Extract.columns := Extract.columns df;
              Extract.rows := Spec.month_filter j df parsed y m |}.
    cbn [Extract.columns Extract.rows].
    split; [|split; [reflexivity|split; [reflexivity|split]]].
    + destruct Hin as [[= <- <-]|[[= <- <-]|[]]].
      * by apply extract_invoices_run.
      * by apply extract_sales_run.
    + apply month_filter_dates; [assumption|]. eapply index_of_lt, Hj.
    + apply month_filter_order.
Qed.

(** C1 at a table of two invoices dated 11/25/2025 and 01/11/2025, asked
    for November 2025, with a parser that settles the order of day and
    month on the first value of the column: the filter keeps the first
    invoice alone, where the day-first reading of each date keeps the
    second alone; and with a parser that rejects mixed UTC offsets the
    filter raises. *)
Lemma month_filter_spec_witness :
  (exists out,
      Extract.outcome
        (Extract.extract_invoices Sample.inferring_lib Sample.mdb_file 2025 11)
        Sample.world = Ok out /\
      Extract.rows out =
      [ [Extract.CNum 1; Extract.CTime (Sample.november_2025 25); Extract.CNum 100] ] /\
      Spec.month_filter 1 Sample.american_table
        (map (Sample.parse_cell true) (Extract.column_at 1 Sample.american_table))
        2025 11 =
      [ [Extract.CNum 2; Extract.CTime (Sample.november_2025 1); Extract.CNum 50] ]) /\
  Extract.outcome
    (Extract.extract_invoices Sample.offsets_lib Sample.mdb_file 2025 11)
    Sample.world = Raise (ValueError "Mixed timezones detected").
Proof.
  split.
  - destruct (month_filter_spec Sample.inferring_lib Sample.world Sample.mdb_file
                2025 11 Extract.extract_invoices "INVOICE" Sample.american_table 1)
      as [_ Hanswer].
    + left. reflexivity.
    + reflexivity.
    + repeat constructor.
    + reflexivity.
    + destruct (Hanswer _ eq_refl eq_refl) as (out & Hout & _ & Hrows & _).
      exists out. split; [exact Hout|]. rewrite Hrows. split; reflexivity.
  - destruct (month_filter_spec Sample.offsets_lib Sample.world Sample.mdb_file
                2025 11 Extract.extract_invoices "INVOICE" Sample.offsets_table 1)
      as [Hraise _].
    + left. reflexivity.
    + reflexivity.
    + repeat constructor.
    + reflexivity.
    + apply Hraise. reflexivity.
Defined.

(** ** The renderer *)

Section Renderer.
Import Report Spec.

Lemma for_each_total {A B} (body : A -> Result B) (f : A -> B) (xs : list A) :
  (forall x, body x = Ok (f x)) ->
  for_each body xs = Ok (map f xs).
Proof.
  intros Hbody. induction xs as [|x xs IH]; [reflexivity|].
  cbn [for_each map]. rewrite Hbody, result_bind_ok, IH. reflexivity.
Qed.

Lemma gt_spec (a b : Q) : gt a b = true <-> (b < a)%Q.
Proof.
  unfold gt. rewrite negb_true_iff, <- not_true_iff_false, Qle_bool_iff.
  split; [apply Qnot_le_lt|apply Qlt_not_le].
Qed.

(** The guarded division of the sections never raises and yields the
    percentage, or 0 when the denominator is not positive. *)
Lemma guarded_ratio (num den : Q) :
  (if gt den 0 then q ← truediv num den; Ok (q * 100)%Q else Ok 0%Q)
  = Ok (percent num den).
Proof.
  unfold percent. destruct (gt den 0) eqn:Hgt.
  - apply gt_spec in Hgt. unfold truediv.
    destruct (Qeq_bool den 0) eqn:Hz.
    + apply Qeq_bool_iff in Hz. rewrite Hz in Hgt. exfalso. apply (Qlt_irrefl 0 Hgt).
    + rewrite result_bind_ok. destruct (Qlt_le_dec 0 den) as [_|Hle]; [reflexivity|].
      exfalso. apply (Qlt_not_le _ _ Hgt Hle).
  - destruct (Qlt_le_dec 0 den) as [Hlt|_]; [|reflexivity].
    apply gt_spec in Hlt. congruence.
Qed.

Lemma percent_positive (num den : Q) :
  (0 < den)%Q -> percent num den = (num / den * 100)%Q.
Proof.
  intros Hden. unfold percent. destruct (Qlt_le_dec 0 den) as [_|Hle]; [reflexivity|].
  exfalso. apply (Qlt_not_le _ _ Hden Hle).
Qed.

Lemma percent_not_positive (num den : Q) :
  (den <= 0)%Q -> percent num den = 0%Q.
Proof.
  intros Hden. unfold percent. destruct (Qlt_le_dec 0 den) as [Hlt|_]; [|reflexivity].
  exfalso. apply (Qlt_not_le _ _ Hlt Hden).
Qed.

Lemma payment_section_run (rd : ReportData) :
  exists story header,
    create_payment_section rd = Ok story /\
    tables story =
    [header :: map (breakdown_row (payment_breakdown (invoices rd))
                                  (total_revenue (invoices rd)))
                   (amounts (payment_breakdown (invoices rd)))].
Proof.
  unfold create_payment_section.
  rewrite (for_each_total _ (breakdown_row (payment_breakdown (invoices rd))
                                           (total_revenue (invoices rd)))).
  - eexists _, _. split; reflexivity.
  - intros [method amount]. rewrite guarded_ratio. reflexivity.
Qed.

Lemma service_section_run (rd : ReportData) :
  exists story header,
    create_service_section rd = Ok story /\
    tables story =
    [header :: map (breakdown_row (service_breakdown (invoices rd))
                                  (total_revenue (invoices rd)))
                   (amounts (service_breakdown (invoices rd)))].
Proof.
  unfold create_service_section.
  rewrite (for_each_total _ (breakdown_row (service_breakdown (invoices rd))
                                           (total_revenue (invoices rd)))).
  - eexists _, _. split; reflexivity.
  - intros [service amount]. rewrite guarded_ratio. reflexivity.
Qed.

Lemma category_section_run (rd : ReportData) :
  exists story header,
    create_category_section rd = Ok story /\
    tables story = [header :: map category_row (category_performance (sales rd))].
Proof.
  unfold create_category_section.
  rewrite (for_each_total _ category_row).
  - eexists _, _. split; reflexivity.
  - intros cat. rewrite guarded_ratio. reflexivity.
Qed.

End Renderer.

(** C8 (amended). Rendering never divides by zero: every payment and
    service row shows amount / total_revenue * 100 and every category row
    shows profit / revenue * 100, computed from the sums of the Report Data,
    when the denominator is positive, and 0 whenever the denominator is zero
    or negative. *)
Theorem percentages_spec (rd : Report.ReportData) :
  let inv := Report.invoices rd in
  (exists story header,
     Report.create_payment_section rd = Ok story /\
     Spec.tables story =
     [header :: map (Spec.breakdown_row (Report.payment_breakdown inv)
                                        (Report.total_revenue inv))
                    (Report.amounts (Report.payment_breakdown inv))]) /\
  (exists story header,
     Report.create_service_section rd = Ok story /\
     Spec.tables story =
     [header :: map (Spec.breakdown_row (Report.service_breakdown inv)
                                        (Report.total_revenue inv))
                    (Report.amounts (Report.service_breakdown inv))]) /\
  (exists story header,
     Report.create_category_section rd = Ok story /\
     Spec.tables story =
     [header :: map Spec.category_row
                    (Report.category_performance (Report.sales rd))]) /\
  (forall num den, (0 < den)%Q -> Spec.percent num den = (num / den * 100)%Q) /\
  (forall num den, (den <= 0)%Q -> Spec.percent num den = 0%Q).
Proof.
  cbn zeta. split; [apply payment_section_run|].
  split; [apply service_section_run|].
  split; [apply category_section_run|].
  split; [apply percent_positive|apply percent_not_positive].
Qed.

Lemma percentages_spec_witness :
  Spec.percent 50 200 = (50 / 200 * 100)%Q /\ Spec.percent 50 0 = 0%Q.
Proof.
  destruct (percentages_spec Sample.refund_report) as (_ & _ & _ & Hpos & Hzero).
  split; [apply Hpos|apply Hzero]; vm_compute; [reflexivity|discriminate].
Defined.

(** C8, counterexample. The claim as worded fails on a negative
    denominator: with a total revenue of -100 the CASH row of -100 shows 0
    and not (-100) / (-100) * 100, although the denominator is not 0. *)
Lemma percentages_negative_total :
  exists story header row,
    Report.create_payment_section Sample.refund_report = Ok story /\
    Spec.tables story = [[header; row]] /\
    last row = Some [Report.FmtQ ".1f" 0; Report.Lit "%"] /\
    ~ (Report.total_revenue (Report.invoices Sample.refund_report) == 0)%Q /\
    ~ (0 == (-100) / Report.total_revenue (Report.invoices Sample.refund_report) * 100)%Q.
Proof.
  eexists _, _, _. split; [reflexivity|]. split; [reflexivity|].
  split; [reflexivity|]. split; vm_compute; discriminate.
Qed.

(** ** The executive summary and the growth metric *)

Section Summary.
Import Report Spec.

Lemma summary_tables (rd : ReportData) :
  tables (create_summary_section rd) =
  [ ([ [[Lit "Total Revenue"]; [FmtQ ",.2f" (total_revenue (invoices rd))]];
       [[Lit "Total Transactions"]; [FmtZ "," (total_transactions (invoices rd))]];
       [[Lit "Average Transaction"]; [FmtQ ".2f" (average_transaction (invoices rd))]];
       [[Lit "Total VAT Collected"]; [FmtQ ".2f" (total_vat (invoices rd))]] ]
     ++ match growth rd with
        | Some (Some g) =>
            [ [growth_label;
               [FmtQ "+.1f" g; Lit "% ";
                Lit (if gt g 0 then up_arrow else down_arrow)]] ]
        | Some None | None => []
        end)%list ].
Proof.
  unfold create_summary_section. destruct (growth rd) as [[g|]|]; reflexivity.
Qed.

Lemma average_total (total : Q) (n : Z) :
  exists avg,
    Analyze.average total n = Ok avg /\
    (0 < n -> avg = (total / inject_Z n)%Q) /\
    (n <= 0 -> avg = 0%Q).
Proof.
  unfold Analyze.average. destruct (Z.ltb_spec 0 n) as [Hpos|Hle].
  - unfold truediv. destruct (Qeq_bool (inject_Z n) 0) eqn:Hz.
    + apply Qeq_bool_iff in Hz. unfold Qeq in Hz. cbn in Hz. lia.
    + eexists. split; [reflexivity|]. split; [reflexivity|lia].
  - eexists. split; [reflexivity|]. split; [lia|reflexivity].
Qed.

Lemma compute_growth_total (current : Q) (previous : option Q) :
  exists g,
    Analyze.compute_growth current previous = Ok g /\
    (g = None <-> previous = None \/ exists p, previous = Some p /\ (p == 0)%Q) /\
    (forall p, previous = Some p -> ~ (p == 0)%Q ->
               g = Some ((current - p) / p * 100)%Q).
Proof.
  unfold Analyze.compute_growth. destruct previous as [p|].
  - destruct (Qeq_bool p 0) eqn:Hz.
    + apply Qeq_bool_iff in Hz. exists None. split; [reflexivity|]. split.
      * split; [|reflexivity]. intros _. right. exists p. split; [reflexivity|exact Hz].
      * intros p' [= <-] Hnz. contradiction.
    + apply Qeq_bool_neq in Hz. unfold truediv.
      destruct (Qeq_bool p 0) eqn:Hz'; [apply Qeq_bool_iff in Hz'; contradiction|].
      eexists. split; [reflexivity|]. split.
      * split; [discriminate|]. intros [[=]|(p' & [= <-] & Hp)]. contradiction.
      * intros p' [= <-] _. reflexivity.
  - exists None. split; [reflexivity|]. split.
    + split; [|reflexivity]. intros _. left. reflexivity.
    + intros p [=].
Qed.

End Summary.

(** C10. When growth is present, the growth row ends the summary table and
    its arrow points up only for a strictly positive growth; for a zero or
    negative growth it points down. *)
Theorem growth_arrow_spec (rd : Report.ReportData) (g : Q) :
  Report.growth rd = Some (Some g) ->
  exists rows arrow,
    Spec.tables (Report.create_summary_section rd) = [rows] /\
    last rows =
    Some [Spec.growth_label;
          [Report.FmtQ "+.1f" g; Report.Lit "% "; Report.Lit arrow]] /\
    ((0 < g)%Q -> arrow = "↑") /\
    ((g <= 0)%Q -> arrow = "↓") /\
    (arrow = "↑" -> (0 < g)%Q).
Proof.
  intros Hg. rewrite summary_tables, Hg.
  eexists _, _. split; [reflexivity|]. split; [reflexivity|].
  destruct (Report.gt g 0) eqn:Hgt.
  - apply gt_spec in Hgt. split; [reflexivity|]. split; [|done].
    intros Hle. exfalso. apply (Qlt_not_le _ _ Hgt Hle).
  - assert (Hle : (g <= 0)%Q).
    { apply Qnot_lt_le. intros Hlt. apply gt_spec in Hlt. congruence. }
    split; [|split]; [|reflexivity|discriminate].
    intros Hlt. exfalso. apply (Qlt_not_le _ _ Hlt Hle).
Qed.

Lemma growth_arrow_spec_witness :
  exists rows,
    Spec.tables (Report.create_summary_section Sample.refund_report) = [rows] /\
    last rows =
    Some [Spec.growth_label;
          [Report.FmtQ "+.1f" 0; Report.Lit "% "; Report.Lit "↓"]].
Proof.
  destruct (growth_arrow_spec Sample.refund_report 0 eq_refl)
    as (rows & arrow & Htables & Hlast & _ & Hdown & _).
  exists rows. split; [exact Htables|].
  rewrite Hlast, Hdown; [reflexivity|]. vm_compute. discriminate.
Defined.

(** C2. The growth metric of the aggregator is None exactly when the
    revenue of the preceding month is unavailable or zero, and otherwise
    (current - previous) / previous * 100, computed without raising; the
    summary shows the growth row exactly when growth is present and not
    None. *)
Theorem growth_spec (top_items_count : nat) (start : Extract.Timestamp)
        (invoices : list Analyze.Invoice) (sales : list Analyze.Sale)
        (previous_invoices : option (list Analyze.Invoice)) :
  let current := Analyze.sum (map Analyze.amount invoices) in
  let previous :=
    fmap (fun prev => Analyze.sum (map Analyze.amount prev)) previous_invoices in
  (exists rd g,
     Analyze.generate_report_data top_items_count start invoices sales
                                  previous_invoices = Ok rd /\
     Report.growth rd = Some g /\
     (g = None <-> previous = None \/ exists p, previous = Some p /\ (p == 0)%Q) /\
     (forall p, previous = Some p -> ~ (p == 0)%Q ->
                g = Some ((current - p) / p * 100)%Q)) /\
  (forall rd : Report.ReportData,
     exists rows,
       Spec.tables (Report.create_summary_section rd) = [rows] /\
       ((exists row, In row rows /\ Spec.label row = Some Spec.growth_label) <->
        (exists g, Report.growth rd = Some (Some g)))).
Proof.
  intros current previous. split.
  - unfold Analyze.generate_report_data, Analyze.invoice_metrics.
    destruct (average_total current (Z.of_nat (length invoices)))
      as (avg & Havg & _).
    fold current. rewrite Havg, !result_bind_ok. cbn [Report.total_revenue].
    fold previous.
    destruct (compute_growth_total current previous) as (g & Hg & Hnone & Hsome).
    rewrite Hg, result_bind_ok. eexists _, g. split; [reflexivity|].
    split; [reflexivity|]. split; assumption.
  - intros rd. rewrite summary_tables. eexists. split; [reflexivity|].
    destruct (Report.growth rd) as [[g|]|].
    + split; [intros _; exists g; reflexivity|]. intros _.
      eexists. split; [apply in_or_app; right; left; reflexivity|reflexivity].
    + split; [|intros [g [=]]]. intros (row & Hin & Hlabel). exfalso.
      cbn in Hin. destruct Hin as [<-|[<-|[<-|[<-|[]]]]]; discriminate Hlabel.
    + split; [|intros [g [=]]]. intros (row & Hin & Hlabel). exfalso.
      cbn in Hin. destruct Hin as [<-|[<-|[<-|[<-|[]]]]]; discriminate Hlabel.
Qed.

Lemma growth_spec_witness :
  exists rd,
    Analyze.generate_report_data 5 (Sample.november_2025 1) Sample.two_invoices []
      (Some [Sample.invoice 1 "CASH" 200 20]) = Ok rd /\
    Report.growth rd = Some (Some ((300 - 200) / 200 * 100)%Q).
Proof.
  destruct (growth_spec 5 (Sample.november_2025 1) Sample.two_invoices []
              (Some [Sample.invoice 1 "CASH" 200 20]))
    as [(rd & g & Hrd & Hgrowth & _ & Hvalue) _].
  exists rd. split; [exact Hrd|]. rewrite Hgrowth. f_equal.
  rewrite (Hvalue (Analyze.sum [200%Q])); [reflexivity|reflexivity|].
  vm_compute. discriminate.
Defined.

(** C4. The average transaction of the aggregator is total_revenue /
    total_transactions when there is a transaction and 0 when there is
    none; it is computed without raising. *)
Theorem average_transaction_spec (invoices : list Analyze.Invoice) :
  exists metrics,
    Analyze.invoice_metrics invoices = Ok metrics /\
    Report.total_revenue metrics = Analyze.sum (map Analyze.amount invoices) /\
    Report.total_transactions metrics = Z.of_nat (length invoices) /\
    (0 < Report.total_transactions metrics ->
     Report.average_transaction metrics =
     (Report.total_revenue metrics / inject_Z (Report.total_transactions metrics))%Q) /\
    (Report.total_transactions metrics = 0 ->
     Report.average_transaction metrics = 0%Q).
Proof.
  unfold Analyze.invoice_metrics.
  destruct (average_total (Analyze.sum (map Analyze.amount invoices))
                          (Z.of_nat (length invoices)))
    as (avg & Havg & Hpos & Hzero).
  rewrite Havg, result_bind_ok. eexists. split; [reflexivity|].
  cbn [Report.total_revenue Report.total_transactions Report.average_transaction].
  split; [reflexivity|]. split; [reflexivity|]. split; [exact Hpos|].
  intros Hn. apply Hzero. lia.
Qed.

Lemma average_transaction_spec_witness :
  (exists metrics,
     Analyze.invoice_metrics Sample.two_invoices = Ok metrics /\
     (Report.average_transaction metrics == 150)%Q) /\
  (exists metrics,
     Analyze.invoice_metrics [] = Ok metrics /\
     Report.average_transaction metrics = 0%Q).
Proof.
  split.
  - destruct (average_transaction_spec Sample.two_invoices)
      as (metrics & Hrun & Hrev & Hn & Hpos & _).
    exists metrics. split; [exact Hrun|].
    rewrite Hpos, Hrev, Hn; [reflexivity|]. rewrite Hn. reflexivity.
  - destruct (average_transaction_spec []) as (metrics & Hrun & _ & Hn & _ & Hzero).
    exists metrics. split; [exact Hrun|]. apply Hzero. rewrite Hn. reflexivity.
Defined.

(** ** The configured number of top items *)

Section TopItemsCount.
Import Report.

Ltac lookup_name :=
  repeat (rewrite lookup_insert_ne by discriminate);
  first [apply lookup_insert_eq | apply lookup_empty].

(** What a successful import of config.py binds. *)
Lemma load_names (here : string) (ini : Config.IniFile) (config : gmap string PyVal) :
  Config.load here ini = Ok config ->
  config !! "TOP_ITEMS_COUNT" = None /\
  config !! "RESTAURANT_NAME" = Some (VStr "TORNADO RESTAURANT") /\
  config !! "REPORT_TITLE" = Some (VStr "Sales Report") /\
  config !! "MDB_FILENAME" = Some (VStr "resturant.mdb") /\
  exists base, config !! "BACKUP_BASE_PATH" = Some (VStr base).
Proof.
  unfold Config.load.
  destruct (Config.section ini "PATH") as [path|e]; [|discriminate].
  rewrite result_bind_ok.
  destruct (Config.get path "backup_base_path" _) as [base|e]; [|discriminate].
  rewrite !result_bind_ok.
  destruct (Config.get path "daily_reports_path" _) as [daily|e]; [|discriminate].
  rewrite !result_bind_ok.
  destruct (Config.get path "monthly_reports_path" _) as [monthly|e]; [|discriminate].
  rewrite !result_bind_ok.
  destruct (Config.section ini "EMAIL") as [email|e]; [|discriminate].
  rewrite result_bind_ok.
  destruct (Config.get email "email_from" _) as [sender|e]; [|discriminate].
  rewrite !result_bind_ok.
  destruct (Config.get email "email_password" _) as [password|e]; [|discriminate].
  rewrite !result_bind_ok.
  destruct (Config.get email "email_to" _) as [recipient|e]; [|discriminate].
  rewrite !result_bind_ok.
  destruct (Config.get email "smtp_server" _) as [server|e]; [|discriminate].
  rewrite !result_bind_ok.
  destruct (Config.get email "smtp_port" _) as [text|e]; [|discriminate].
  rewrite !result_bind_ok.
  destruct (Config.py_int text) as [port|e]; [|discriminate].
  rewrite result_bind_ok. intros [= <-].
  split; [lookup_name|]. split; [lookup_name|]. split; [lookup_name|].
  split; [lookup_name|]. exists base. lookup_name.
Qed.

End TopItemsCount.

(** C6. config.py binds no TOP_ITEMS_COUNT: whatever the ini files hold,
    the attribute access of the top-items section raises AttributeError, and
    so does the whole report. *)
Theorem top_items_count_missing (here : string) (ini : Config.IniFile)
        (config : gmap string PyVal) (rd : Report.ReportData) :
  Config.load here ini = Ok config ->
  getattr config "TOP_ITEMS_COUNT" = Raise (AttributeError "TOP_ITEMS_COUNT") /\
  Report.create_top_items_section config rd = Raise (AttributeError "TOP_ITEMS_COUNT") /\
  Report.generate_pdf config rd = Raise (AttributeError "TOP_ITEMS_COUNT").
Proof.
  intros Hload.
  destruct (load_names here ini config Hload) as (Hcount & Hname & Htitle & _).
  assert (Hattr : getattr config "TOP_ITEMS_COUNT" = Raise (AttributeError "TOP_ITEMS_COUNT"))
    by (unfold getattr; rewrite Hcount; reflexivity).
  assert (Htop : Report.create_top_items_section config rd =
                 Raise (AttributeError "TOP_ITEMS_COUNT"))
    by (unfold Report.create_top_items_section; rewrite Hattr; reflexivity).
  split; [exact Hattr|]. split; [exact Htop|].
  unfold Report.generate_pdf, Report.create_header, getattr_str, getattr.
  rewrite Hname, Htitle, !result_bind_ok.
  destruct (payment_section_run rd) as (payment & ? & -> & _).
  destruct (service_section_run rd) as (service & ? & -> & _).
  rewrite !result_bind_ok, Htop. reflexivity.
Qed.

Lemma top_items_count_missing_witness :
  Report.generate_pdf Sample.config Sample.empty_report =
  Raise (AttributeError "TOP_ITEMS_COUNT").
Proof.
  apply (top_items_count_missing "." Config.defaults_ini Sample.config Sample.empty_report).
  reflexivity.
Defined.

(** ** Rendering an empty month *)

(** C9. For Report Data built from empty invoice and sale sets and a
    config module as config.py loads it, the payment, service and category
    sections return, without raising, a table that holds its header row
    only; the top-items section raises AttributeError when it reads
    config.TOP_ITEMS_COUNT, before it builds its table, and the whole
    report raises with it. *)
Theorem empty_report_render (here : string) (ini : Config.IniFile)
        (config : gmap string PyVal) (rd : Report.ReportData) :
  Config.load here ini = Ok config ->
  (Report.total_revenue (Report.invoices rd) == 0)%Q ->
  Report.amounts (Report.payment_breakdown (Report.invoices rd)) = [] ->
  Report.amounts (Report.service_breakdown (Report.invoices rd)) = [] ->
  Report.top_items (Report.sales rd) = [] ->
  Report.category_performance (Report.sales rd) = [] ->
  (exists story header,
     Report.create_payment_section rd = Ok story /\ Spec.tables story = [[header]]) /\
  (exists story header,
     Report.create_service_section rd = Ok story /\ Spec.tables story = [[header]]) /\
  (exists story header,
     Report.create_category_section rd = Ok story /\ Spec.tables story = [[header]]) /\
  Report.create_top_items_section config rd = Raise (AttributeError "TOP_ITEMS_COUNT") /\
  Report.generate_pdf config rd = Raise (AttributeError "TOP_ITEMS_COUNT").
Proof.
  intros Hload _ Hpay Hserv _ Hcat.
  destruct (load_names here ini config Hload) as (Hcount & Hname & Htitle & _).
  destruct (payment_section_run rd) as (payment & hp & Hp & Htp).
  destruct (service_section_run rd) as (service & hs & Hs & Hts).
  destruct (category_section_run rd) as (category & hc & Hc & Htc).
  rewrite Hpay in Htp. rewrite Hserv in Hts. rewrite Hcat in Htc.
  split; [exists payment, hp; done|].
  split; [exists service, hs; done|].
  split; [exists category, hc; done|].
  assert (Htop : Report.create_top_items_section config rd =
                 Raise (AttributeError "TOP_ITEMS_COUNT"))
    by (unfold Report.create_top_items_section, getattr; rewrite Hcount; reflexivity).
  split; [exact Htop|].
  unfold Report.generate_pdf, Report.create_header, getattr_str, getattr.
  rewrite Hname, Htitle, !result_bind_ok, Hp, Hs, !result_bind_ok, Htop.
  reflexivity.
Qed.

Lemma empty_report_render_witness :
  (exists story header,
     Report.create_payment_section Sample.empty_report = Ok story /\
     Spec.tables story = [[header]]) /\
  Report.generate_pdf Sample.config Sample.empty_report =
  Raise (AttributeError "TOP_ITEMS_COUNT").
Proof.
  destruct (empty_report_render "." Config.defaults_ini Sample.config
              Sample.empty_report) as (Hpayment & _ & _ & _ & Hpdf);
    try reflexivity.
  split; [exact Hpayment|exact Hpdf].
Defined.

(** ** The top items of the aggregator *)

Section TopItems.
Import Report Analyze Spec.

Lemma map_fmap {A B} (f : A -> B) (l : list A) : map f l = f <$> l.
Proof. induction l as [|x l IH]; [reflexivity|]. cbn. by rewrite IH. Qed.

(** *** First-seen order *)

Lemma elem_of_first_seen (x : string) (l : list string) :
  x ∈ first_seen l <-> x ∈ l.
Proof.
  induction l as [|y l IH]; [reflexivity|].
  cbn [first_seen]. rewrite !elem_of_cons, list_elem_of_filter, IH.
  destruct (decide (x = y)); tauto.
Qed.

Lemma NoDup_first_seen (l : list string) : NoDup (first_seen l).
Proof.
  induction l as [|y l IH]; [constructor|].
  cbn [first_seen]. apply NoDup_cons. split.
  - rewrite list_elem_of_filter. intros [Hne _]. by apply Hne.
  - by apply NoDup_filter.
Qed.

Lemma first_seen_snoc (l : list string) (x : string) :
  first_seen (l ++ [x]) =
  (first_seen l ++ if decide (x ∈ l) then [] else [x])%list.
Proof.
  induction l as [|y l IH]; [reflexivity|].
  cbn [app first_seen]. rewrite IH, filter_app. f_equal. f_equal.
  destruct (decide (x ∈ l)) as [Hin|Hnin].
  - rewrite decide_True by (by right). reflexivity.
  - destruct (decide (x = y)) as [->|Hne].
    + rewrite decide_True by (by left).
      rewrite filter_cons_False by (intros Hne; by apply Hne). reflexivity.
    + rewrite decide_False by (rewrite elem_of_cons; tauto).
      rewrite filter_cons_True by done. reflexivity.
Qed.

Lemma distinct_count (l : list string) :
  size (list_to_set l : gset string) = length (first_seen l).
Proof.
  rewrite <- (size_list_to_set (C := gset string) (first_seen l))
    by apply NoDup_first_seen.
  f_equal. apply set_eq. intros x.
  rewrite !elem_of_list_to_set, elem_of_first_seen. reflexivity.
Qed.

(** *** Grouping *)

Lemma group_items_snoc (sales : list Sale) (s : Sale) :
  group_items (sales ++ [s]) = add_item s (group_items sales).
Proof. unfold group_items. rewrite fold_left_app. reflexivity. Qed.

Lemma add_item_names (s : Sale) (acc : list Item.t) :
  map Item.ITEMS (add_item s acc) =
  (map Item.ITEMS acc ++
   if decide (item s ∈ map Item.ITEMS acc) then [] else [item s])%list.
Proof.
  induction acc as [|a acc IH]; [reflexivity|].
  cbn [add_item map app].
  destruct (String.eqb_spec (Item.ITEMS a) (item s)) as [Heq|Hne].
  - rewrite decide_True by (rewrite Heq; by left).
    cbn [map Item.ITEMS]. rewrite app_nil_r. reflexivity.
  - cbn [map]. rewrite IH. f_equal. f_equal.
    destruct (decide (item s ∈ map Item.ITEMS acc)) as [Hin|Hnin].
    + rewrite decide_True by (by right). reflexivity.
    + rewrite decide_False by (rewrite elem_of_cons; intros [?|?]; congruence).
      reflexivity.
Qed.

Lemma group_items_names (sales : list Sale) :
  map Item.ITEMS (group_items sales) = first_seen (map item sales).
Proof.
  induction sales as [|s sales IH] using rev_ind; [reflexivity|].
  rewrite group_items_snoc, add_item_names, IH, map_app. cbn [map].
  rewrite first_seen_snoc. f_equal.
  destruct (decide (item s ∈ map item sales)) as [Hin|Hnin].
  - rewrite decide_True by (by apply elem_of_first_seen). reflexivity.
  - rewrite decide_False by (by rewrite elem_of_first_seen). reflexivity.
Qed.

(** *** Sums *)

Lemma sum_snoc (xs : list Q) (x : Q) : sum (xs ++ [x]) = (sum xs + x)%Q.
Proof. unfold sum. rewrite fold_left_app. reflexivity. Qed.

Lemma sales_of_snoc (name : string) (sales : list Sale) (s : Sale) :
  sales_of name (sales ++ [s]) =
  (sales_of name sales ++ if decide (item s = name) then [s] else [])%list.
Proof.
  unfold sales_of. rewrite filter_app. reflexivity.
Qed.

Lemma sales_of_unseen (name : string) (sales : list Sale) :
  name ∉ map item sales -> sales_of name sales = [].
Proof.
  unfold sales_of. induction sales as [|s sales IH]; intros Hnin; [reflexivity|].
  cbn [map] in Hnin. rewrite not_elem_of_cons in Hnin. destruct Hnin as [Hne Hnin].
  rewrite filter_cons_False by congruence. apply IH, Hnin.
Qed.

Lemma add_item_elem (s : Sale) (acc : list Item.t) (a' : Item.t) :
  NoDup (map Item.ITEMS acc) ->
  a' ∈ add_item s acc ->
  (a' ∈ acc /\ Item.ITEMS a' <> item s) \/
  (exists a, a ∈ acc /\ Item.ITEMS a = item s /\
             a' = {| Item.ITEMS := Item.ITEMS a;
                     Item.QTY := (Item.QTY a + quantity s)%Q;
                     Item.AMOUNT := (Item.AMOUNT a + revenue s)%Q;
                     Item.PROFIT := (Item.PROFIT a + profit s)%Q |}) \/
  ((item s ∉ map Item.ITEMS acc) /\ a' = item_of s).
Proof.
  induction acc as [|a acc IH]; intros Hnd Hin.
  - cbn in Hin. apply list_elem_of_singleton in Hin. right. right.
    split; [apply not_elem_of_nil|exact Hin].
  - cbn [map] in Hnd. apply NoDup_cons in Hnd as [Hfresh Hnd].
    cbn [add_item] in Hin.
    destruct (String.eqb_spec (Item.ITEMS a) (item s)) as [Heq|Hne].
    + apply elem_of_cons in Hin as [->|Hin].
      * right. left. exists a. split; [by left|]. split; [exact Heq|reflexivity].
      * left. split; [by right|]. intros Hsame. apply Hfresh.
        rewrite Heq, <- Hsame, map_fmap. apply list_elem_of_fmap. by exists a'.
    + apply elem_of_cons in Hin as [->|Hin].
      * left. split; [by left|exact Hne].
      * destruct (IH Hnd Hin) as [[Hold Hother]|[(a0 & Ha0 & Hname & ->)|[Hnew ->]]].
        -- left. split; [by right|exact Hother].
        -- right. left. exists a0. split; [by right|]. split; [exact Hname|reflexivity].
        -- right. right. split; [|reflexivity]. cbn [map].
           rewrite not_elem_of_cons. split; [congruence|exact Hnew].
Qed.

Lemma group_items_aggregates (sales : list Sale) (a : Item.t) :
  a ∈ group_items sales -> aggregates a sales.
Proof.
  revert a. induction sales as [|s sales IH] using rev_ind; intros a Hin.
  - cbn in Hin. by apply not_elem_of_nil in Hin.
  - rewrite group_items_snoc in Hin.
    apply add_item_elem in Hin;
      [|rewrite group_items_names; apply NoDup_first_seen].
    unfold aggregates. cbn zeta. rewrite sales_of_snoc.
    destruct Hin as [[Hold Hother]|[(a0 & Ha0 & Hname & ->)|[Hnew ->]]].
    + rewrite decide_False by congruence. rewrite app_nil_r. apply IH, Hold.
    + cbn [Item.ITEMS Item.QTY Item.AMOUNT Item.PROFIT].
      rewrite decide_True by congruence.
      destruct (IH a0 Ha0) as (_ & Hq & Hr & Hp). cbn zeta in Hq, Hr, Hp.
      split; [by destruct (sales_of (Item.ITEMS a0) sales)|].
      rewrite !map_app. cbn [map]. rewrite !sum_snoc, <- Hq, <- Hr, <- Hp.
      split; [reflexivity|]. split; reflexivity.
    + cbn [item_of Item.ITEMS Item.QTY Item.AMOUNT Item.PROFIT].
      rewrite decide_True by reflexivity.
      rewrite group_items_names, elem_of_first_seen in Hnew.
      rewrite (sales_of_unseen _ _ Hnew). cbn [app map].
      split; [discriminate|]. unfold sum. cbn [fold_left].
      split; [|split]; symmetry; apply Qplus_0_l.
Qed.

(** *** The stable sort *)

Lemma insert_desc_perm (x : Item.t) (l : list Item.t) :
  insert_desc x l ≡ₚ x :: l.
Proof.
  induction l as [|y l IH]; [reflexivity|].
  cbn [insert_desc]. destruct (Qle_bool (Item.AMOUNT y) (Item.AMOUNT x)); [reflexivity|].
  rewrite IH. apply Permutation_swap.
Qed.

Lemma sort_perm (l : list Item.t) : sort_by_revenue_desc l ≡ₚ l.
Proof.
  induction l as [|x l IH]; [reflexivity|].
  cbn [sort_by_revenue_desc fold_right].
  fold (sort_by_revenue_desc l). rewrite insert_desc_perm, IH. reflexivity.
Qed.

Lemma insert_desc_sorted (x : Item.t) (l : list Item.t) :
  StronglySorted at_least l -> StronglySorted at_least (insert_desc x l).
Proof.
  induction 1 as [|y l Hl IH Hy]; [repeat constructor|].
  cbn [insert_desc].
  destruct (Qle_bool (Item.AMOUNT y) (Item.AMOUNT x)) eqn:Hle.
  - apply Qle_bool_iff in Hle. constructor; [by constructor|].
    constructor; [exact Hle|].
    eapply Forall_impl; [exact Hy|]. intros z Hz. unfold at_least in *.
    eapply Qle_trans; eassumption.
  - constructor; [exact IH|].
    rewrite insert_desc_perm. constructor; [|exact Hy].
    unfold at_least. apply Qlt_le_weak, Qnot_le_lt.
    intros Hyx. apply Qle_bool_iff in Hyx. congruence.
Qed.

Lemma sort_sorted (l : list Item.t) : StronglySorted at_least (sort_by_revenue_desc l).
Proof.
  induction l as [|x l IH]; [constructor|].
  cbn [sort_by_revenue_desc fold_right]. apply insert_desc_sorted, IH.
Qed.

(** Inserting does not move an element past one of equal revenue. *)
Lemma insert_desc_stable (v : Q) (x : Item.t) (l : list Item.t) :
  filter (earns v) (insert_desc x l) = filter (earns v) (x :: l).
Proof.
  induction l as [|y l IH]; [reflexivity|].
  cbn [insert_desc].
  destruct (Qle_bool (Item.AMOUNT y) (Item.AMOUNT x)) eqn:Hle; [reflexivity|].
  rewrite (filter_cons _ y), IH, !(filter_cons _ x), (filter_cons _ y).
  destruct (decide (earns v y)) as [Hy|Hy]; [|reflexivity].
  destruct (decide (earns v x)) as [Hx|Hx]; [|reflexivity].
  exfalso. unfold earns in Hx, Hy. apply Qeq_bool_iff in Hx, Hy.
  apply not_true_iff_false in Hle. apply Hle, Qle_bool_iff.
  rewrite Hx, Hy. apply Qle_refl.
Qed.

Lemma sort_stable (v : Q) (l : list Item.t) :
  filter (earns v) (sort_by_revenue_desc l) = filter (earns v) l.
Proof.
  induction l as [|x l IH]; [reflexivity|].
  cbn [sort_by_revenue_desc fold_right]. fold (sort_by_revenue_desc l).
  rewrite insert_desc_stable, !filter_cons, IH. reflexivity.
Qed.

Lemma sorted_before (R : Item.t -> Item.t -> Prop) (l : list Item.t) (a b : Item.t) :
  StronglySorted R l -> before a b l -> R a b.
Proof.
  unfold before. induction 1 as [|x l Hl IH Hx]; intros Hsub.
  - by apply sublist_nil_r in Hsub.
  - apply sublist_cons_r in Hsub as [Hsub|(l' & [= <- <-] & Hsub)]; [by apply IH|].
    rewrite Forall_forall in Hx. apply Hx.
    apply (elem_of_sublist [b]); [by left|exact Hsub].
Qed.

Lemma before_filter (P : Item.t -> Prop) `{!forall x, Decision (P x)}
      (l : list Item.t) (a b : Item.t) :
  P a -> P b -> before a b l -> before a b (filter P l).
Proof.
  unfold before. intros Ha Hb. induction l as [|x l IH]; intros Hsub.
  - by apply sublist_nil_r in Hsub.
  - apply sublist_cons_r in Hsub as [Hsub|(l' & [= <- <-] & Hsub)].
    + rewrite filter_cons. destruct (decide (P x)); [apply sublist_cons|]; by apply IH.
    + rewrite filter_cons_True by done. apply sublist_skip.
      clear IH. induction l as [|y l IH].
      * by apply sublist_nil_r in Hsub.
      * apply sublist_cons_r in Hsub as [Hsub|(l'' & [= <- <-] & Hsub)].
        -- rewrite filter_cons. destruct (decide (P y)); [apply sublist_cons|]; by apply IH.
        -- rewrite filter_cons_True by done. apply sublist_skip, sublist_nil_l.
Qed.

End TopItems.

(** C5. The top items of the aggregator number min(N, distinct item
    names), stand in descending order of summed revenue, keep items of equal
    revenue in the order in which they were first encountered, and each
    carries the name of an item with its summed quantity, revenue and
    profit. *)
Theorem top_items_spec (n : nat) (start : Extract.Timestamp)
        (invoices : list Analyze.Invoice) (sales : list Analyze.Sale)
        (previous_invoices : option (list Analyze.Invoice))
        (rd : Report.ReportData) :
  Analyze.generate_report_data n start invoices sales previous_invoices = Ok rd ->
  let top := Report.top_items (Report.sales rd) in
  let names := map Analyze.item sales in
  length top = Nat.min n (size (list_to_set names : gset string)) /\
  (forall a b, Spec.before a b top ->
               (Report.Item.AMOUNT b <= Report.Item.AMOUNT a)%Q) /\
  (forall a b, Spec.before a b top ->
               (Report.Item.AMOUNT a == Report.Item.AMOUNT b)%Q ->
               Spec.before (Report.Item.ITEMS a) (Report.Item.ITEMS b)
                           (Spec.first_seen names)) /\
  (forall a, a ∈ top -> Spec.aggregates a sales).
Proof.
  intros Hrd top names.
  assert (Htop : top = firstn n (Analyze.sort_by_revenue_desc (Analyze.group_items sales))).
  { unfold Analyze.generate_report_data in Hrd.
    destruct (Analyze.invoice_metrics invoices) as [inv|e]; [|discriminate].
    rewrite result_bind_ok in Hrd.
    destruct (Analyze.compute_growth _ _) as [g|e]; [|discriminate].
    rewrite result_bind_ok in Hrd. injection Hrd as <-. reflexivity. }
  clearbody top. subst top.
  set (grouped := Analyze.group_items sales).
  set (sorted := Analyze.sort_by_revenue_desc grouped).
  assert (Hprefix : forall a b, Spec.before a b (firstn n sorted) -> Spec.before a b sorted).
  { intros a b Hab. unfold Spec.before in *. etrans; [exact Hab|apply sublist_take]. }
  split; [|split; [|split]].
  - rewrite length_take. f_equal.
    unfold sorted. rewrite (Permutation_length (sort_perm grouped)).
    unfold names. rewrite distinct_count, <- group_items_names. fold grouped.
    symmetry. apply length_map.
  - intros a b Hab. apply (sorted_before Spec.at_least sorted a b).
    + apply sort_sorted.
    + apply Hprefix, Hab.
  - intros a b Hab Htie.
    apply Hprefix in Hab.
    apply (before_filter (Spec.earns (Report.Item.AMOUNT b))) in Hab.
    + unfold sorted in Hab. rewrite sort_stable in Hab.
      unfold Spec.before in *.
      assert (Hg : sublist [a; b] grouped) by (etrans; [exact Hab|apply sublist_filter]).
      unfold names. rewrite <- group_items_names, map_fmap. fold grouped.
      change [Report.Item.ITEMS a; Report.Item.ITEMS b]
        with (Report.Item.ITEMS <$> [a; b]).
      by apply fmap_sublist.
    + unfold Spec.earns. by apply Qeq_bool_iff.
    + unfold Spec.earns. apply Qeq_bool_iff. reflexivity.
  - intros a Ha. apply group_items_aggregates. fold grouped.
    rewrite <- (sort_perm grouped). fold sorted.
    eapply elem_of_sublist; [exact Ha|apply sublist_take].
Qed.

Lemma top_items_spec_witness :
  exists rd,
    Analyze.generate_report_data 2 (Sample.november_2025 1) [] Sample.four_sales None
    = Ok rd /\
    length (Report.top_items (Report.sales rd)) = 2%nat /\
    map Report.Item.ITEMS (Report.top_items (Report.sales rd)) = ["PIZZA"; "TEA"].
Proof.
  eexists. split; [reflexivity|].
  split; [|reflexivity].
  destruct (top_items_spec 2 (Sample.november_2025 1) [] Sample.four_sales None _ eq_refl)
    as (Hlen & _).
  rewrite Hlen. vm_compute. reflexivity.
Defined.

(** ** More on extract.py *)

Section BackupRuns.
Import Extract Spec.

Variable config : gmap string PyVal.
Variable w : World.
Variable base : string.
Hypothesis Hbase : getattr_str config "BACKUP_BASE_PATH" = Ok base.

(** The whole run over a base directory that can be listed. *)
Lemma find_latest_backup_listing (names : list string) :
  fs_exists w (Path_of base) = true ->
  fs_listdir w (Path_of base) = Some names ->
  find_latest_backup config w =
  (([FsExists (Path_of base); FsIterdir (Path_of base)]
      ++ map FsIsDir (map (joinpath (Path_of base)) names)
      ++ map FsStat (backup_candidates w (Path_of base) names))%list,
   match backup_candidates w (Path_of base) names with
   | [] => Raise (FileNotFoundError "No backup folders found")
   | c :: cs => snd (max_loop st_mtime c (fs_mtime w c) cs w)
   end).
Proof.
  intros Hex Hls. unfold find_latest_backup.
  unfold mbind at 1 2 3. unfold IO_bind, io_bind.
  unfold lift at 1. rewrite Hbase. cbn [exists_ app]. rewrite Hex. cbn [negb].
  unfold mbind at 1. unfold IO_bind, io_bind. cbn [iterdir]. rewrite Hls.
  unfold mbind at 1. unfold IO_bind, io_bind.
  change (comprehension _ ?fs w) with (comprehension is_backup fs w).
  rewrite comprehension_run. fold (backup_candidates w (Path_of base) names).
  destruct (backup_candidates w (Path_of base) names) as [|c cs].
  - cbn. rewrite !app_nil_r. reflexivity.
  - unfold max_by. unfold mbind, IO_bind, io_bind. cbn [st_mtime].
    pose proof (max_loop_trace w cs c (fs_mtime w c)) as Htr.
    destruct (max_loop st_mtime c (fs_mtime w c) cs w) as [t out].
    cbn in Htr. subst t. destruct out; cbn; rewrite ?app_nil_r; reflexivity.
Qed.

End BackupRuns.

Section IOSteps.
Import Extract.

Lemma io_bind_eq {A B} (m : IO A) (k : A -> IO B) (w : World) :
  io_bind m k w =
  match snd (m w) with
  | Ok a => ((fst (m w) ++ fst (k a w))%list, snd (k a w))
  | Raise e => (fst (m w), Raise e)
  end.
Proof.
  unfold io_bind. destruct (m w) as [t [a|e]]; cbn [fst snd]; [|reflexivity].
  destruct (k a w); reflexivity.
Qed.

Lemma io_bind_step {A B} (m : IO A) (k : A -> IO B) (w : World)
      (t : list Event) (a : A) :
  m w = (t, Ok a) ->
  io_bind m k w = (let '(t', r) := k a w in ((t ++ t')%list, r)).
Proof. unfold io_bind. intros ->. reflexivity. Qed.

Lemma io_bind_stop {A B} (m : IO A) (k : A -> IO B) (w : World)
      (t : list Event) (e : PyExc) :
  m w = (t, Raise e) -> io_bind m k w = (t, Raise e).
Proof. unfold io_bind. intros ->. reflexivity. Qed.

(** A pure continuation adds nothing to the trace. *)
Lemma io_bind_lift {A B} (m : IO A) (f : A -> Result B) (w : World) :
  io_bind m (fun x => lift (f x)) w = (fst (m w), snd (m w) ≫= f).
Proof.
  rewrite io_bind_eq. destruct (snd (m w)); cbn; rewrite ?app_nil_r; reflexivity.
Qed.

Lemma export_table_trace (lib : Lib) (w : World) (mdb_file : Path) (table : string) :
  trace (export_table lib mdb_file table) w =
  [ProcSpawn (Spec.export_command mdb_file table)].
Proof. unfold trace. rewrite export_table_run. reflexivity. Qed.

Lemma extract_invoices_trace (lib : Lib) (w : World) (mdb_file : Path) (y m : Z) :
  trace (extract_invoices lib mdb_file y m) w =
  [ProcSpawn (Spec.export_command mdb_file "INVOICE")].
Proof.
  unfold trace, extract_invoices. unfold mbind at 1. unfold IO_bind.
  rewrite io_bind_lift. apply export_table_trace.
Qed.

Lemma extract_sales_trace (lib : Lib) (w : World) (mdb_file : Path) (y m : Z) :
  trace (extract_sales lib mdb_file y m) w =
  [ProcSpawn (Spec.export_command mdb_file "SALE")].
Proof.
  unfold trace, extract_sales. unfold mbind at 1. unfold IO_bind.
  rewrite io_bind_lift. apply export_table_trace.
Qed.

Lemma extract_invoices_raises (lib : Lib) (w : World) (mdb_file : Path) (y m : Z)
      (e : PyExc) :
  outcome (export_table lib mdb_file "INVOICE") w = Raise e ->
  outcome (extract_invoices lib mdb_file y m) w = Raise e.
Proof.
  unfold outcome, extract_invoices. intros Hexp. unfold mbind at 1. unfold IO_bind.
  rewrite io_bind_lift. cbn [snd]. rewrite Hexp. reflexivity.
Qed.

Lemma extract_sales_raises (lib : Lib) (w : World) (mdb_file : Path) (y m : Z)
      (e : PyExc) :
  outcome (export_table lib mdb_file "SALE") w = Raise e ->
  outcome (extract_sales lib mdb_file y m) w = Raise e.
Proof.
  unfold outcome, extract_sales. intros Hexp. unfold mbind at 1. unfold IO_bind.
  rewrite io_bind_lift. cbn [snd]. rewrite Hexp. reflexivity.
Qed.

Lemma extract_sales_without_date (lib : Lib) (w : World) (mdb_file : Path) (y m : Z)
      (df : DataFrame) :
  outcome (export_table lib mdb_file "SALE") w = Ok df ->
  index_of "DATE" (columns df) = None ->
  outcome (extract_sales lib mdb_file y m) w = Raise (KeyError "DATE").
Proof.
  unfold outcome, extract_sales. intros Hexp Hnone. unfold mbind at 1. unfold IO_bind.
  rewrite io_bind_lift. cbn [snd]. rewrite Hexp, result_bind_ok.
  assert (Hget : getitem df "DATE" = Raise (KeyError "DATE"))
    by (unfold getitem; rewrite Hnone; reflexivity).
  rewrite Hget. reflexivity.
Qed.

End IOSteps.

Section MonthlyRuns.
Import Extract Spec.

Variable config : gmap string PyVal.
Variable lib : Lib.
Variable w : World.
Variable y m : Z.

Lemma get_monthly_data_backup_fails (e : PyExc) :
  outcome (find_latest_backup config) w = Raise e ->
  get_monthly_data config lib y m w = (trace (find_latest_backup config) w, Raise e).
Proof.
  unfold outcome, trace, get_monthly_data. intros Hfind.
  destruct (find_latest_backup config w) as [t0 r0] eqn:Efind.
  cbn [fst snd] in *. subst r0.
  unfold mbind at 1. unfold IO_bind. apply (io_bind_stop _ _ w t0 e Efind).
Qed.

(** The run once a snapshot was found and the database file name is
    configured. *)
Lemma get_monthly_data_after_backup (folder : Path) (filename : string) :
  outcome (find_latest_backup config) w = Ok folder ->
  getattr_str config "MDB_FILENAME" = Ok filename ->
  get_monthly_data config lib y m w =
  let mdb_file := joinpath folder filename in
  let found :=
    (trace (find_latest_backup config) w
       ++ [Print ("Using backup: " ++ str folder); FsExists mdb_file])%list in
  if fs_exists w mdb_file then
    match outcome (extract_invoices lib mdb_file y m) w with
    | Raise e => ((found ++ [ProcSpawn (export_command mdb_file "INVOICE")])%list, Raise e)
    | Ok inv =>
        match outcome (extract_sales lib mdb_file y m) w with
        | Raise e =>
            ((found ++ [ProcSpawn (export_command mdb_file "INVOICE");
                        ProcSpawn (export_command mdb_file "SALE")])%list, Raise e)
        | Ok sal =>
            ((found ++ [ProcSpawn (export_command mdb_file "INVOICE");
                        ProcSpawn (export_command mdb_file "SALE");
                        Print ("Extracted " ++ pretty (length (rows inv))
                               ++ " invoices and " ++ pretty (length (rows sal))
                               ++ " sales records")])%list,
             Ok {| invoices := inv; sales := sal; backup_folder := folder |})
        end
    end
  else (found, Raise (FileNotFoundError ("MDB file not found: " ++ str mdb_file))).
Proof.
  unfold outcome, trace, get_monthly_data. intros Hfind Hname.
  destruct (find_latest_backup config w) as [t0 r0] eqn:Efind.
  cbn [fst snd] in *. subst r0.
  unfold mbind, IO_bind, lift. rewrite Hname.
  rewrite (io_bind_step _ _ w t0 folder Efind).
  rewrite (io_bind_step _ _ w _ tt eq_refl).
  rewrite (io_bind_step _ _ w [] filename eq_refl).
  rewrite (io_bind_step _ _ w _ _ eq_refl).
  set (mdb_file := joinpath folder filename).
  pose proof (extract_invoices_trace lib w mdb_file y m) as Hti.
  pose proof (extract_sales_trace lib w mdb_file y m) as Hts.
  unfold trace in Hti, Hts.
  destruct (fs_exists w mdb_file); cbn [negb]; [|cbn; rewrite <- ?app_assoc; reflexivity].
  destruct (extract_invoices lib mdb_file y m w) as [ti [inv|e]] eqn:Ei;
    cbn [fst snd] in *; subst ti.
  - rewrite (io_bind_step _ _ w _ inv Ei).
    destruct (extract_sales lib mdb_file y m w) as [ts [sal|e]] eqn:Es;
      cbn [fst snd] in *; subst ts.
    + rewrite (io_bind_step _ _ w _ sal Es).
      rewrite (io_bind_step _ _ w _ tt eq_refl).
      cbn. rewrite <- ?app_assoc. reflexivity.
    + rewrite (io_bind_stop _ _ w _ e Es). cbn. rewrite <- ?app_assoc. reflexivity.
  - rewrite (io_bind_stop _ _ w _ e Ei). cbn. rewrite <- ?app_assoc. reflexivity.
Qed.

End MonthlyRuns.

(** X1. Over a base directory that can be listed, the locator checks that
    the base exists, lists it, tests every entry once with is_dir in
    directory order, and reads the modification time of the candidates only,
    once each and in order; it touches nothing else. *)
Theorem find_latest_backup_trace (config : gmap string PyVal) (w : Extract.World)
        (base : string) (names : list string) :
  getattr_str config "BACKUP_BASE_PATH" = Ok base ->
  Extract.fs_exists w (Extract.Path_of base) = true ->
  Extract.fs_listdir w (Extract.Path_of base) = Some names ->
  Extract.trace (Extract.find_latest_backup config) w =
  ([Extract.FsExists (Extract.Path_of base); Extract.FsIterdir (Extract.Path_of base)]
     ++ map Extract.FsIsDir (map (Extract.joinpath (Extract.Path_of base)) names)
     ++ map Extract.FsStat (Spec.backup_candidates w (Extract.Path_of base) names))%list.
Proof.
  intros Hbase Hex Hls. unfold Extract.trace.
  rewrite (find_latest_backup_listing config w base Hbase names Hex Hls). reflexivity.
Qed.

Lemma find_latest_backup_trace_witness :
  Extract.trace (Extract.find_latest_backup Sample.config) Sample.world =
  [Extract.FsExists Sample.root; Extract.FsIterdir Sample.root;
   Extract.FsIsDir Sample.october; Extract.FsIsDir Sample.notes;
   Extract.FsIsDir Sample.november; Extract.FsIsDir ["backups"; "BACKUP.txt"];
   Extract.FsStat Sample.october; Extract.FsStat Sample.november].
Proof.
  rewrite (find_latest_backup_trace Sample.config Sample.world "./backups"
             ["backup_2025_10"; "notes"; "Backup_2025_11"; "BACKUP.txt"]);
    reflexivity.
Defined.

(** X2. When the base path exists but cannot be listed as a directory, the
    locator raises NotADirectoryError right after the listing attempt: no
    entry is examined and the not-found error is not used. *)
Theorem find_latest_backup_not_a_directory (config : gmap string PyVal)
        (w : Extract.World) (base : string) :
  getattr_str config "BACKUP_BASE_PATH" = Ok base ->
  Extract.fs_exists w (Extract.Path_of base) = true ->
  Extract.fs_listdir w (Extract.Path_of base) = None ->
  Extract.find_latest_backup config w =
  ([Extract.FsExists (Extract.Path_of base); Extract.FsIterdir (Extract.Path_of base)],
   Raise (NotADirectoryError (Extract.str (Extract.Path_of base)))).
Proof.
  intros Hbase Hex Hls. unfold Extract.find_latest_backup.
  unfold mbind, Extract.IO_bind, Extract.lift. rewrite Hbase.
  rewrite (io_bind_step _ _ w [] base eq_refl).
  rewrite (io_bind_step _ _ w _ _ eq_refl). rewrite Hex. cbn [negb].
  erewrite io_bind_stop; [reflexivity|].
  unfold Extract.iterdir. rewrite Hls. reflexivity.
Qed.

Lemma find_latest_backup_not_a_directory_witness :
  Extract.outcome (Extract.find_latest_backup Sample.config) Sample.file_world =
  Raise (NotADirectoryError "backups").
Proof.
  unfold Extract.outcome.
  rewrite (find_latest_backup_not_a_directory Sample.config Sample.file_world "./backups");
    reflexivity.
Defined.

(** X3. An export starts exactly one child process, mdb-export with the
    database file and the table name, whatever its outcome; the two month
    filters add no further effect to the export of their table. *)
Theorem exports_spawn_once (lib : Extract.Lib) (w : Extract.World)
        (mdb_file : Extract.Path) (table : string) (y m : Z) :
  Extract.trace (Extract.export_table lib mdb_file table) w =
  [Extract.ProcSpawn ["mdb-export"; Extract.str mdb_file; table]] /\
  Extract.trace (Extract.extract_invoices lib mdb_file y m) w =
  [Extract.ProcSpawn ["mdb-export"; Extract.str mdb_file; "INVOICE"]] /\
  Extract.trace (Extract.extract_sales lib mdb_file y m) w =
  [Extract.ProcSpawn ["mdb-export"; Extract.str mdb_file; "SALE"]].
Proof.
  split; [apply export_table_trace|].
  split; [apply extract_invoices_trace|apply extract_sales_trace].
Qed.

(** X4. A month filter whose export fails raises the error of the export
    unchanged. *)
Theorem month_filter_export_failure (lib : Extract.Lib) (w : Extract.World)
        (mdb_file : Extract.Path) (y m : Z)
        (extract : Extract.Lib -> Extract.Path -> Z -> Z -> Extract.IO Extract.DataFrame)
        (table : string) (e : PyExc) :
  In (extract, table)
     [(Extract.extract_invoices, "INVOICE"); (Extract.extract_sales, "SALE")] ->
  Extract.outcome (Extract.export_table lib mdb_file table) w = Raise e ->
  Extract.outcome (extract lib mdb_file y m) w = Raise e.
Proof.
  intros [[= <- <-]|[[= <- <-]|[]]] Hexp.
  - by apply extract_invoices_raises.
  - by apply extract_sales_raises.
Qed.

Lemma month_filter_export_failure_witness :
  Extract.outcome (Extract.extract_sales Sample.lib Sample.mdb_file 2025 11) Sample.world
  = Raise (CalledProcessError 3 ["mdb-export"; Extract.str Sample.mdb_file; "SALE"]).
Proof.
  apply (month_filter_export_failure Sample.lib Sample.world Sample.mdb_file 2025 11
           Extract.extract_sales "SALE").
  - right. left. reflexivity.
  - reflexivity.
Defined.

(** X5. On an exported table that has no DATE column both month filters
    raise KeyError for DATE. *)
Theorem month_filter_without_date (lib : Extract.Lib) (w : Extract.World)
        (mdb_file : Extract.Path) (y m : Z)
        (extract : Extract.Lib -> Extract.Path -> Z -> Z -> Extract.IO Extract.DataFrame)
        (table : string) (df : Extract.DataFrame) :
  In (extract, table)
     [(Extract.extract_invoices, "INVOICE"); (Extract.extract_sales, "SALE")] ->
  Extract.outcome (Extract.export_table lib mdb_file table) w = Ok df ->
  ~ In "DATE" (Extract.columns df) ->
  Extract.outcome (extract lib mdb_file y m) w = Raise (KeyError "DATE").
Proof.
  intros Hin Hexp Hcol.
  assert (Hnone : Extract.index_of "DATE" (Extract.columns df) = None).
  { induction (Extract.columns df) as [|c cols IH]; [reflexivity|].
    cbn [Extract.index_of]. destruct (String.eqb_spec c "DATE") as [->|Hne].
    - exfalso. apply Hcol. by left.
    - rewrite IH; [reflexivity|]. intros Hc. apply Hcol. by right. }
  destruct Hin as [[= <- <-]|[[= <- <-]|[]]].
  - eapply extract_invoices_without_date; eassumption.
  - eapply extract_sales_without_date; eassumption.
Qed.

Lemma month_filter_without_date_witness :
  Extract.outcome
    (Extract.extract_invoices Sample.undated_lib Sample.mdb_file 2025 11) Sample.world
  = Raise (KeyError "DATE").
Proof.
  apply (month_filter_without_date Sample.undated_lib Sample.world Sample.mdb_file
           2025 11 Extract.extract_invoices "INVOICE" Sample.undated_table).
  - left. reflexivity.
  - reflexivity.
  - cbn. intros [H|[H|[]]]; discriminate H.
Defined.

Lemma filter_zip_length {A B} (f : B -> bool) (xs : list A) (ys : list B) :
  length xs = length ys ->
  length (filter (fun xy => f (snd xy) = true) (zip xs ys)) =
  length (filter (fun y => f y = true) ys).
Proof.
  revert ys. induction xs as [|x xs IH]; intros [|y ys] Hlen; try discriminate;
    [reflexivity|].
  cbn [zip zip_with]. rewrite !filter_cons. cbn [snd].
  injection Hlen as Hlen. destruct (decide (f y = true)); cbn [length]; by rewrite IH.
Qed.

(** X6. When the library answers with one entry per row for the DATE
    column, a month filter returns as many rows as that answer has dates of
    the target month, under the columns of the exported table; when no
    entry falls in the month (every one is NaT or of another month, or the
    table has no rows) the result is the empty table with these columns,
    not an error. *)
Theorem month_filter_row_count (lib : Extract.Lib) (w : Extract.World)
        (mdb_file : Extract.Path) (y m : Z)
        (extract : Extract.Lib -> Extract.Path -> Z -> Z -> Extract.IO Extract.DataFrame)
        (table : string) (df : Extract.DataFrame) (j : nat)
        (parsed : list (option Extract.Timestamp)) :
  In (extract, table)
     [(Extract.extract_invoices, "INVOICE"); (Extract.extract_sales, "SALE")] ->
  Extract.outcome (Extract.export_table lib mdb_file table) w = Ok df ->
  Extract.well_formed df ->
  Extract.index_of "DATE" (Extract.columns df) = Some j ->
  Extract.datetimes lib Extract.errors_coerce true (Extract.column_at j df)
  = Ok parsed ->
  length parsed = length (Extract.rows df) ->
  exists out,
    Extract.outcome (extract lib mdb_file y m) w = Ok out /\
    Extract.columns out = Extract.columns df /\
    length (Extract.rows out) =
    length (filter (fun o => Spec.in_month y m o = true) parsed) /\
    (Forall (fun o => Spec.in_month y m o = false) parsed -> Extract.rows out = []).
Proof.
  intros Hin Hexp Hwf Hj Hparsed Hrows.
  exists {| Extract.columns := Extract.columns df;
            Extract.rows := Spec.month_filter j df parsed y m |}.
  cbn [Extract.columns Extract.rows].
  assert (Hlen : length (Spec.month_filter j df parsed y m) =
                 length (filter (fun o => Spec.in_month y m o = true) parsed)).
  { unfold Spec.month_filter. rewrite length_map.
    apply (filter_zip_length (Spec.in_month y m)). by rewrite Hrows. }
  split; [|split; [reflexivity|split; [exact Hlen|]]].
  - destruct Hin as [[= <- <-]|[[= <- <-]|[]]].
    + by apply extract_invoices_run.
    + by apply extract_sales_run.
  - intros Hnone. apply length_zero_iff_nil. rewrite Hlen.
    apply length_zero_iff_nil. clear Hlen Hparsed Hrows.
    induction Hnone as [|o os Ho Hos IH]; [reflexivity|].
    rewrite filter_cons_False by congruence. exact IH.
Qed.

Lemma month_filter_row_count_witness :
  exists out,
    Extract.outcome
      (Extract.extract_invoices Sample.lib Sample.mdb_file 2024 11) Sample.world
    = Ok out /\
    Extract.columns out = ["ID"; "DATE"; "TOTAL"] /\
    Extract.rows out = [].
Proof.
  destruct (month_filter_row_count Sample.lib Sample.world Sample.mdb_file 2024 11
              Extract.extract_invoices "INVOICE" Sample.invoice_table 1
              (map (Sample.parse_cell true)
                   (Extract.column_at 1 Sample.invoice_table)))
    as (out & Hout & Hcols & _ & Hempty).
  - left. reflexivity.
  - reflexivity.
  - repeat constructor.
  - reflexivity.
  - reflexivity.
  - reflexivity.
  - exists out. split; [exact Hout|]. split; [exact Hcols|].
    apply Hempty. repeat constructor.
Defined.

(** X7. When a snapshot is found, it holds the database file and both
    exports succeed, get_monthly_data returns the two filtered tables and the
    snapshot; after the locator's reads it prints the snapshot, checks the
    database file, exports INVOICE and then SALE from that one file, and
    prints the two row counts. *)
Theorem get_monthly_data_success (config : gmap string PyVal) (lib : Extract.Lib)
        (w : Extract.World) (y m : Z) (folder : Extract.Path) (filename : string)
        (inv sal : Extract.DataFrame) :
  Extract.outcome (Extract.find_latest_backup config) w = Ok folder ->
  getattr_str config "MDB_FILENAME" = Ok filename ->
  let mdb_file := Extract.joinpath folder filename in
  Extract.fs_exists w mdb_file = true ->
  Extract.outcome (Extract.extract_invoices lib mdb_file y m) w = Ok inv ->
  Extract.outcome (Extract.extract_sales lib mdb_file y m) w = Ok sal ->
  Extract.outcome (Extract.get_monthly_data config lib y m) w =
  Ok {| Extract.invoices := inv; Extract.sales := sal;
        Extract.backup_folder := folder |} /\
  Extract.trace (Extract.get_monthly_data config lib y m) w =
  (Extract.trace (Extract.find_latest_backup config) w
     ++ [Extract.Print ("Using backup: " ++ Extract.str folder);
         Extract.FsExists mdb_file;
         Extract.ProcSpawn ["mdb-export"; Extract.str mdb_file; "INVOICE"];
         Extract.ProcSpawn ["mdb-export"; Extract.str mdb_file; "SALE"];
         Extract.Print ("Extracted " ++ pretty (length (Extract.rows inv))
                        ++ " invoices and " ++ pretty (length (Extract.rows sal))
                        ++ " sales records")])%list.
Proof.
  intros Hfind Hname mdb_file Hex Hinv Hsal.
  pose proof Hinv as Hinv'. pose proof Hsal as Hsal'.
  unfold Extract.outcome, Extract.trace.
  rewrite (get_monthly_data_after_backup config lib w y m folder filename Hfind Hname).
  cbn zeta. fold mdb_file. rewrite Hex, Hinv', Hsal'. cbn [fst snd].
  split; [reflexivity|]. rewrite <- app_assoc. reflexivity.
Qed.

Lemma get_monthly_data_success_witness :
  exists data,
    Extract.outcome (Extract.get_monthly_data Sample.config Sample.lib 2025 11)
                    Sample.full_world = Ok data /\
    Extract.backup_folder data = Sample.november /\
    length (Extract.rows (Extract.invoices data)) = 2%nat.
Proof.
  eexists. split.
  - apply (get_monthly_data_success Sample.config Sample.lib Sample.full_world 2025 11
             Sample.november "resturant.mdb"); reflexivity.
  - split; reflexivity.
Defined.

Lemma find_latest_backup_reads_only (config : gmap string PyVal) (w : Extract.World) :
  Forall (fun e => Extract.is_fs_read e = true)
         (Extract.trace (Extract.find_latest_backup config) w).
Proof.
  unfold Extract.trace.
  destruct (getattr_str config "BACKUP_BASE_PATH") as [base|e] eqn:Hbase.
  - destruct (Extract.fs_exists w (Extract.Path_of base)) eqn:Hex.
    + destruct (Extract.fs_listdir w (Extract.Path_of base)) as [names|] eqn:Hls.
      * rewrite (find_latest_backup_listing config w base Hbase names Hex Hls).
        fs_reads.
      * unfold Extract.find_latest_backup.
        unfold mbind, Extract.IO_bind, Extract.lift. rewrite Hbase.
        rewrite (io_bind_step _ _ w [] base eq_refl).
        rewrite (io_bind_step _ _ w _ _ eq_refl). rewrite Hex. cbn [negb].
        erewrite io_bind_stop
          by (unfold Extract.iterdir; rewrite Hls; reflexivity).
        fs_reads.
    + unfold Extract.find_latest_backup.
      unfold mbind, Extract.IO_bind, Extract.lift. rewrite Hbase.
      rewrite (io_bind_step _ _ w [] base eq_refl).
      rewrite (io_bind_step _ _ w _ _ eq_refl). rewrite Hex. cbn [negb].
      rewrite (io_bind_step _ _ w [] base eq_refl). fs_reads.
  - unfold Extract.find_latest_backup.
    unfold mbind, Extract.IO_bind, Extract.lift. rewrite Hbase.
    erewrite io_bind_stop by reflexivity. fs_reads.
Qed.

(** X8. When the snapshot that was found does not hold the database file,
    get_monthly_data raises FileNotFoundError naming the file, after it has
    printed the snapshot; no export process is started. *)
Theorem get_monthly_data_without_database (config : gmap string PyVal)
        (lib : Extract.Lib) (w : Extract.World) (y m : Z)
        (folder : Extract.Path) (filename : string) :
  Extract.outcome (Extract.find_latest_backup config) w = Ok folder ->
  getattr_str config "MDB_FILENAME" = Ok filename ->
  let mdb_file := Extract.joinpath folder filename in
  Extract.fs_exists w mdb_file = false ->
  Extract.outcome (Extract.get_monthly_data config lib y m) w =
  Raise (FileNotFoundError ("MDB file not found: " ++ Extract.str mdb_file)) /\
  Forall (fun e => Spec.is_spawn e = false)
         (Extract.trace (Extract.get_monthly_data config lib y m) w) /\
  In (Extract.Print ("Using backup: " ++ Extract.str folder))
     (Extract.trace (Extract.get_monthly_data config lib y m) w).
Proof.
  intros Hfind Hname mdb_file Hex.
  unfold Extract.outcome, Extract.trace.
  rewrite (get_monthly_data_after_backup config lib w y m folder filename Hfind Hname).
  cbn zeta. fold mdb_file. rewrite Hex. cbn [fst snd].
  split; [reflexivity|]. split.
  - apply Forall_app_2.
    + eapply Forall_impl; [apply find_latest_backup_reads_only|].
      intros [] Hr; try reflexivity; discriminate Hr.
    + repeat constructor.
  - apply in_or_app. right. left. reflexivity.
Qed.

Lemma get_monthly_data_without_database_witness :
  Extract.outcome (Extract.get_monthly_data Sample.config Sample.lib 2025 11)
                  Sample.world =
  Raise (FileNotFoundError "MDB file not found: backups/Backup_2025_11/resturant.mdb").
Proof.
  apply (get_monthly_data_without_database Sample.config Sample.lib Sample.world 2025 11
           Sample.november "resturant.mdb"); reflexivity.
Defined.

(** X9. When the locator fails, get_monthly_data raises the locator's error
    and does nothing beyond the locator's reads: nothing is printed and no
    export is started. *)
Theorem get_monthly_data_without_backup (config : gmap string PyVal)
        (lib : Extract.Lib) (w : Extract.World) (y m : Z) (e : PyExc) :
  Extract.outcome (Extract.find_latest_backup config) w = Raise e ->
  Extract.outcome (Extract.get_monthly_data config lib y m) w = Raise e /\
  Extract.trace (Extract.get_monthly_data config lib y m) w =
  Extract.trace (Extract.find_latest_backup config) w /\
  Forall (fun ev => Extract.is_fs_read ev = true)
         (Extract.trace (Extract.get_monthly_data config lib y m) w).
Proof.
  intros Hfind. unfold Extract.outcome at 1. unfold Extract.trace at 1 3.
  rewrite (get_monthly_data_backup_fails config lib w y m e Hfind). cbn [fst snd].
  split; [reflexivity|]. split; [reflexivity|]. apply find_latest_backup_reads_only.
Qed.

Lemma get_monthly_data_without_backup_witness :
  Extract.outcome (Extract.get_monthly_data Sample.config Sample.lib 2025 11)
                  Sample.file_world = Raise (NotADirectoryError "backups").
Proof.
  apply (get_monthly_data_without_backup Sample.config Sample.lib Sample.file_world
           2025 11 (NotADirectoryError "backups")).
  reflexivity.
Defined.

(** X10. A failed export ends get_monthly_data with the error of that
    export.  When the INVOICE export fails the SALE export is never started;
    when the SALE export fails both processes have run and the closing
    message is not printed. *)
Theorem get_monthly_data_export_failure (config : gmap string PyVal)
        (lib : Extract.Lib) (w : Extract.World) (y m : Z)
        (folder : Extract.Path) (filename : string) :
  Extract.outcome (Extract.find_latest_backup config) w = Ok folder ->
  getattr_str config "MDB_FILENAME" = Ok filename ->
  let mdb_file := Extract.joinpath folder filename in
  let found :=
    (Extract.trace (Extract.find_latest_backup config) w
       ++ [Extract.Print ("Using backup: " ++ Extract.str folder);
           Extract.FsExists mdb_file])%list in
  Extract.fs_exists w mdb_file = true ->
  (forall e,
     Extract.outcome (Extract.extract_invoices lib mdb_file y m) w = Raise e ->
     Extract.get_monthly_data config lib y m w =
     ((found ++ [Extract.ProcSpawn ["mdb-export"; Extract.str mdb_file; "INVOICE"]])%list,
      Raise e)) /\
  (forall inv e,
     Extract.outcome (Extract.extract_invoices lib mdb_file y m) w = Ok inv ->
     Extract.outcome (Extract.extract_sales lib mdb_file y m) w = Raise e ->
     Extract.get_monthly_data config lib y m w =
     ((found ++ [Extract.ProcSpawn ["mdb-export"; Extract.str mdb_file; "INVOICE"];
                 Extract.ProcSpawn ["mdb-export"; Extract.str mdb_file; "SALE"]])%list,
      Raise e)).
Proof.
  intros Hfind Hname mdb_file found Hex.
  rewrite (get_monthly_data_after_backup config lib w y m folder filename Hfind Hname).
  cbn zeta. fold mdb_file. fold found. rewrite Hex. split.
  - intros e ->. reflexivity.
  - intros inv e -> ->. reflexivity.
Qed.

Lemma get_monthly_data_export_failure_witness :
  Extract.outcome (Extract.get_monthly_data Sample.config Sample.lib 2025 11)
                  Sample.toolless_world =
  Raise (RuntimeError
    "mdb-export not found. Install mdbtools or ensure mdb-export.exe is in PATH.") /\
  Extract.outcome (Extract.get_monthly_data Sample.config Sample.lib 2025 11)
                  Sample.failing_world =
  Raise (CalledProcessError 3 ["mdb-export"; Extract.str Sample.mdb_file; "SALE"]).
Proof.
  split.
  - destruct (get_monthly_data_export_failure Sample.config Sample.lib
                Sample.toolless_world 2025 11 Sample.november "resturant.mdb")
      as [Hinvoice _]; [reflexivity..|].
    unfold Extract.outcome. rewrite (Hinvoice _ eq_refl). reflexivity.
  - destruct (get_monthly_data_export_failure Sample.config Sample.lib
                Sample.failing_world 2025 11 Sample.november "resturant.mdb")
      as [_ Hsale]; [reflexivity..|].
    unfold Extract.outcome. rewrite (Hsale _ _ eq_refl eq_refl). reflexivity.
Defined.

(** ** More on config.py *)

Section ConfigLoad.

Ltac lookup_setting :=
  unfold getattr;
  repeat (rewrite lookup_insert_ne by discriminate);
  rewrite lookup_insert_eq; reflexivity.

(** A value without a percent sign is read as it is. *)
Lemma scan_plain (ini : Config.IniFile) (opt section : string)
      (expand : string -> Result string) (v : string) :
  Config.has_percent v = false ->
  Config.scan ini opt section expand Config.Plain v = Ok v.
Proof.
  induction v as [|c v IH]; [reflexivity|].
  cbn [Config.has_percent Config.scan].
  destruct (Ascii.eqb c "%"); [discriminate|]. cbn [orb].
  intros Hv. rewrite (IH Hv). reflexivity.
Qed.

Lemma section_present (ini : Config.IniFile) (name : string) :
  is_Some (ini !! name) ->
  Config.section ini name = Ok {| Config.parser := ini; Config.section_name := name |}.
Proof.
  unfold Config.section. intros [entries ->].
  by destruct (String.eqb name Config.default_section).
Qed.

Lemma section_absent (ini : Config.IniFile) (name : string) :
  ini !! name = None -> name <> Config.default_section ->
  Config.section ini name = Raise (KeyError name).
Proof.
  unfold Config.section. intros -> Hname.
  destruct (String.eqb_spec name Config.default_section); [contradiction|reflexivity].
Qed.

(** Without percent signs a setting is its own entry, else the entry of
    DEFAULT, else the fallback. *)
Lemma get_setting (ini : Config.IniFile) (section opt fallback : string) :
  Spec.plain_values ini ->
  Config.optionxform opt = opt ->
  Config.get {| Config.parser := ini; Config.section_name := section |} opt fallback
  = Ok (Spec.setting ini section opt fallback).
Proof.
  intros Hplain Hopt.
  unfold Config.get, Config.unify_values, Spec.setting, Config.defaults,
    Config.default_section.
  cbn [Config.parser Config.section_name]. rewrite Hopt.
  assert (Hread : forall name entries v,
             ini !! name = Some entries -> entries !! opt = Some v ->
             Config.interpolate_some ini opt section Config.MAX_INTERPOLATION_DEPTH v
             = Ok v).
  { intros name entries v Hname Hv. apply scan_plain. by eapply Hplain. }
  destruct (ini !! section) as [entries|] eqn:Hsection; cbn [default from_option id mbind option_bind].
  - destruct (entries !! opt) as [v|] eqn:Hv; [by eapply Hread|].
    destruct (ini !! "DEFAULT") as [shared|] eqn:Hdefault; cbn [default from_option id mbind option_bind].
    + destruct (shared !! opt) as [v|] eqn:Hshared; [by eapply Hread|reflexivity].
    + rewrite lookup_empty. reflexivity.
  - rewrite lookup_empty.
    destruct (ini !! "DEFAULT") as [shared|] eqn:Hdefault; cbn [default from_option id mbind option_bind].
    + destruct (shared !! opt) as [v|] eqn:Hshared; [by eapply Hread|reflexivity].
    + rewrite lookup_empty. reflexivity.
Qed.

(** The namespace after a successful import, as the chain of bindings. *)
Lemma load_ok (here : string) (ini : Config.IniFile) (port : Z) :
  is_Some (ini !! "PATH") ->
  is_Some (ini !! "EMAIL") ->
  Spec.plain_values ini ->
  Config.py_int (Spec.setting ini "EMAIL" "smtp_port" "587") = Ok port ->
  exists ns,
    Config.load here ini = Ok ns /\
    (forall name, is_Some (ns !! name) <-> In name Spec.config_names) /\
    getattr ns "BACKUP_BASE_PATH"
      = Ok (VStr (Spec.setting ini "PATH" "backup_base_path" "./backups")) /\
    getattr ns "DAILY_REPORTS_PATH"
      = Ok (VStr (Spec.setting ini "PATH" "daily_reports_path" "./reports/daily")) /\
    getattr ns "MONTHLY_REPORTS_PATH"
      = Ok (VStr (Spec.setting ini "PATH" "monthly_reports_path" "./reports/monthly")) /\
    getattr ns "EMAIL_FROM"
      = Ok (VStr (Spec.setting ini "EMAIL" "email_from" "example@gmail.com")) /\
    getattr ns "EMAIL_PASSWORD"
      = Ok (VStr (Spec.setting ini "EMAIL" "email_password" "")) /\
    getattr ns "EMAIL_TO" = Ok (VStr (Spec.setting ini "EMAIL" "email_to" "")) /\
    getattr ns "SMTP_SERVER"
      = Ok (VStr (Spec.setting ini "EMAIL" "smtp_server" "smtp.gmail.com")) /\
    getattr ns "SMTP_PORT" = Ok (VInt port) /\
    getattr ns "MDB_FILENAME" = Ok (VStr "resturant.mdb") /\
    getattr ns "RESTAURANT_NAME" = Ok (VStr "TORNADO RESTAURANT") /\
    getattr ns "REPORT_TITLE" = Ok (VStr "Sales Report").
Proof.
  intros Hpath Hemail Hplain Hport. unfold Config.load.
  rewrite (section_present _ _ Hpath), (section_present _ _ Hemail).
  repeat (rewrite !result_bind_ok; rewrite (get_setting ini _ _ _ Hplain eq_refl)).
  rewrite result_bind_ok, Hport, result_bind_ok.
  eexists. split; [reflexivity|]. split.
  - intros name. split.
    + intros Hsome.
      repeat (rewrite lookup_insert in Hsome; case_decide;
              [subst name; cbn; tauto|]).
      rewrite lookup_empty in Hsome. by destruct Hsome.
    + intros Hin. cbn in Hin.
      repeat (destruct Hin as [<-|Hin];
              [repeat (rewrite lookup_insert_ne by discriminate);
               rewrite lookup_insert_eq; eauto|]).
      destruct Hin.
  - repeat split; lookup_setting.
Qed.

Lemma lstrip_keeps (c : ascii) (s : string) :
  In c (list_ascii_of_string s) -> Config.is_space c = false ->
  In c (list_ascii_of_string (Config.lstrip s)).
Proof.
  induction s as [|a s IH]; [intros []|]. intros Hin Hc. cbn [Config.lstrip].
  destruct (Config.is_space a) eqn:Ha; [|exact Hin].
  destruct Hin as [->|Hin]; [congruence|]. by apply IH.
Qed.

Lemma rstrip_keeps (c : ascii) (s : string) :
  In c (list_ascii_of_string s) -> Config.is_space c = false ->
  In c (list_ascii_of_string (Config.rstrip s)).
Proof.
  induction s as [|a s IH]; [intros []|]. intros Hin Hc. cbn [Config.rstrip].
  destruct Hin as [->|Hin].
  - destruct (Config.rstrip s); [rewrite Hc|]; left; reflexivity.
  - specialize (IH Hin Hc). destruct (Config.rstrip s) as [|b r]; [destruct IH|].
    right. exact IH.
Qed.

Lemma digits_underscores_stops (c : ascii) (s : string) (acc : Z) (after_digit : bool) :
  In c (list_ascii_of_string s) -> Config.digit_of c = None -> c <> "_"%char ->
  Config.digits_underscores acc after_digit s = None.
Proof.
  revert acc after_digit.
  induction s as [|a s IH]; intros acc after_digit Hin Hd Hu; [destruct Hin|].
  cbn [Config.digits_underscores]. destruct Hin as [->|Hin].
  - rewrite Hd. destruct (Ascii.eqb_spec c "_"); [contradiction|]. reflexivity.
  - destruct (Config.digit_of a); [by apply IH|].
    destruct (Ascii.eqb a "_" && after_digit); [by apply IH|reflexivity].
Qed.

(** [int] rejects a text that holds a letter. *)
Lemma py_int_letter (s : string) (c : ascii) :
  In c (list_ascii_of_string s) ->
  Spec.is_upper_letter c = true \/ Spec.is_upper_letter (Extract.upper_ascii c) = true ->
  Config.py_int s = Raise (ValueError s).
Proof.
  intros Hin Hletter.
  assert (Hc : Config.is_space c = false /\ Config.digit_of c = None /\
               c <> "_"%char /\ c <> "+"%char /\ c <> "-"%char).
  { clear -Hletter. destruct c as [[] [] [] [] [] [] [] []];
      first [ by repeat split
            | exfalso; destruct Hletter as [H|H]; discriminate H ]. }
  destruct Hc as (Hs & Hd & Hu & Hplus & Hminus).
  pose proof (rstrip_keeps _ _ (lstrip_keeps _ _ Hin Hs) Hs) as Hbody.
  unfold Config.py_int.
  destruct (Config.rstrip (Config.lstrip s)) as [|a r]; [destruct Hbody|].
  destruct (Ascii.eqb_spec a "+") as [->|_];
    [|destruct (Ascii.eqb_spec a "-") as [->|_]].
  - destruct Hbody as [Ha|Hr]; [by destruct Hplus|].
    by rewrite (digits_underscores_stops c r).
  - destruct Hbody as [Ha|Hr]; [by destruct Hminus|].
    by rewrite (digits_underscores_stops c r).
  - by rewrite (digits_underscores_stops c (String a r)).
Qed.

End ConfigLoad.

(** Settles [Spec.plain_values] for an ini file that is written out. *)
Ltac plain_entries Hv :=
  repeat (apply lookup_insert_Some in Hv as [[_ <-]|[_ Hv]]; [reflexivity|]);
  discriminate Hv.

Ltac plain_ini :=
  let Hname := fresh "Hname" in
  let Hv := fresh "Hv" in
  intros ? ? ? ? Hname Hv;
  repeat (apply lookup_insert_Some in Hname as [[_ <-]|[_ Hname]];
          [plain_entries Hv|]);
  discriminate Hname.

(** X11. Importing config.py fails with KeyError when the ini files have no
    PATH section, and with KeyError for EMAIL when PATH is there, its three
    settings read (no value holds a percent sign) and EMAIL is not there:
    the per-key defaults do not cover a missing section. *)
Theorem load_missing_section (here : string) (ini : Config.IniFile) :
  (ini !! "PATH" = None -> Config.load here ini = Raise (KeyError "PATH")) /\
  (is_Some (ini !! "PATH") -> ini !! "EMAIL" = None -> Spec.plain_values ini ->
   Config.load here ini = Raise (KeyError "EMAIL")).
Proof.
  unfold Config.load. split.
  - intros Hpath. by rewrite (section_absent _ _ Hpath).
  - intros Hpath Hemail Hplain.
    rewrite (section_present _ _ Hpath), (section_absent _ _ Hemail) by done.
    repeat (rewrite !result_bind_ok; rewrite (get_setting ini _ _ _ Hplain eq_refl)).
    reflexivity.
Qed.

Lemma load_missing_section_witness :
  Config.load "." ∅ = Raise (KeyError "PATH") /\
  Config.load "." (<["PATH" := ∅]> ∅) = Raise (KeyError "EMAIL").
Proof.
  split.
  - apply (load_missing_section "." ∅). reflexivity.
  - apply (load_missing_section "." (<["PATH" := ∅]> ∅)); [|reflexivity|].
    + exists ∅. reflexivity.
    + plain_ini.
Defined.



(** X13. With both sections present, no percent sign in a value and no
    smtp_port key in EMAIL or DEFAULT, the import succeeds and the port is
    587. *)
Theorem load_default_port (here : string) (ini : Config.IniFile)
        (email : gmap string string) :
  is_Some (ini !! "PATH") ->
  ini !! "EMAIL" = Some email ->
  Spec.plain_values ini ->
  email !! "smtp_port" = None ->
  Config.defaults ini !! "smtp_port" = None ->
  exists ns, Config.load here ini = Ok ns /\ getattr ns "SMTP_PORT" = Ok (VInt 587).
Proof.
  intros Hpath Hemail Hplain Hnone Hshared.
  destruct (load_ok here ini 587 Hpath (mk_is_Some _ _ Hemail) Hplain)
    as (ns & Hload & _ & _ & _ & _ & _ & _ & _ & _ & Hport & _).
  - unfold Spec.setting. rewrite Hemail. cbn [mbind option_bind]. rewrite Hnone.
    unfold Config.defaults, Config.default_section in Hshared.
    destruct (ini !! "DEFAULT") as [shared|]; cbn [mbind option_bind];
      [cbn [default from_option id] in Hshared; rewrite Hshared|]; reflexivity.
  - exists ns. split; assumption.
Qed.

Lemma load_default_port_witness :
  exists ns,
    Config.load "." Config.defaults_ini = Ok ns /\ getattr ns "SMTP_PORT" = Ok (VInt 587).
Proof.
  apply (load_default_port "." Config.defaults_ini ∅); try reflexivity.
  - eexists. reflexivity.
  - unfold Config.defaults_ini. plain_ini.
Defined.

(** X14. A smtp_port entry of EMAIL that holds an ASCII letter makes the
    import fail with ValueError, although both sections are present and
    every other setting reads (no value holds a percent sign). *)
Theorem load_bad_port (here : string) (ini : Config.IniFile)
        (email : gmap string string) (value : string) (c : ascii) :
  is_Some (ini !! "PATH") ->
  ini !! "EMAIL" = Some email ->
  Spec.plain_values ini ->
  email !! "smtp_port" = Some value ->
  In c (list_ascii_of_string value) ->
  Spec.is_upper_letter c = true \/ Spec.is_upper_letter (Extract.upper_ascii c) = true ->
  Config.load here ini = Raise (ValueError value).
Proof.
  intros Hpath Hemail Hplain Hvalue Hin Hletter.
  assert (Hport : Spec.setting ini "EMAIL" "smtp_port" "587" = value).
  { unfold Spec.setting. rewrite Hemail. cbn [mbind option_bind].
    rewrite Hvalue. reflexivity. }
  unfold Config.load.
  rewrite (section_present _ _ Hpath), (section_present _ _ (mk_is_Some _ _ Hemail)).
  repeat (rewrite !result_bind_ok; rewrite (get_setting ini _ _ _ Hplain eq_refl)).
  rewrite result_bind_ok, Hport, (py_int_letter value c Hin Hletter). reflexivity.
Qed.

Lemma load_bad_port_witness :
  Config.load "." (<["PATH" := ∅]> (<["EMAIL" := <["smtp_port" := "smtp"]> ∅]> ∅))
  = Raise (ValueError "smtp").
Proof.
  apply (load_bad_port "." _ (<["smtp_port" := "smtp"]> ∅) "smtp" "s");
    try reflexivity.
  - eexists. reflexivity.
  - plain_ini.
  - left. reflexivity.
  - right. reflexivity.
Defined.

(** ** More on report.py *)

Section Percentages.
Import Report Spec.

Lemma percent_bounds (num den : Q) :
  (0 < den)%Q -> (0 <= num)%Q -> (num <= den)%Q ->
  (0 <= percent num den)%Q /\ (percent num den <= 100)%Q.
Proof.
  intros Hden Hlo Hhi. rewrite (percent_positive num den Hden).
  assert (H0 : (0 <= num / den)%Q) by (apply Qle_shift_div_l; [exact Hden|lra]).
  assert (H1 : (num / den <= 1)%Q) by (apply Qle_shift_div_r; [exact Hden|lra]).
  split; lra.
Qed.

Lemma shown_percent_breakdown_row (totals : Breakdown) (total_amount : Q)
      (entry : string * Q) :
  shown_percent (breakdown_row totals total_amount entry)
  = Some (percent (snd entry) total_amount).
Proof. reflexivity. Qed.

Lemma dict_get_missing {V} (d : list (string * V)) (key : string) (fallback : V) :
  ~ In key (map fst d) -> dict_get d key fallback = fallback.
Proof.
  induction d as [|[k v] d IH]; intros Hnin; [reflexivity|].
  cbn [dict_get]. destruct (String.eqb_spec k key) as [->|Hne].
  - exfalso. apply Hnin. by left.
  - apply IH. intros Hin. apply Hnin. by right.
Qed.


End Percentages.

(** X15. With a positive total revenue and every amount of the payment and
    service breakdowns between 0 and the total, every percentage the two
    sections show lies between 0 and 100. *)
Theorem percentages_bounded (rd : Report.ReportData) :
  let inv := Report.invoices rd in
  (0 < Report.total_revenue inv)%Q ->
  (forall entry,
     In entry (Report.amounts (Report.payment_breakdown inv) ++
               Report.amounts (Report.service_breakdown inv)) ->
     (0 <= snd entry)%Q /\ (snd entry <= Report.total_revenue inv)%Q) ->
  exists payment service header1 rows1 header2 rows2,
    Report.create_payment_section rd = Ok payment /\
    Report.create_service_section rd = Ok service /\
    Spec.tables payment = [header1 :: rows1] /\
    Spec.tables service = [header2 :: rows2] /\
    Forall (fun row => exists p, Spec.shown_percent row = Some p /\
                                 (0 <= p)%Q /\ (p <= 100)%Q)
           (rows1 ++ rows2).
Proof.
  intros inv Htotal Hrange.
  destruct (payment_section_run rd) as (payment & header1 & Hp & Htp).
  destruct (service_section_run rd) as (service & header2 & Hs & Hts).
  eexists payment, service, header1, _, header2, _.
  split; [exact Hp|]. split; [exact Hs|]. split; [exact Htp|]. split; [exact Hts|].
  apply Forall_app. split; apply List.Forall_map, Forall_forall; intros entry Hin;
    apply list_elem_of_In in Hin;
    (destruct (Hrange entry) as [Hlo Hhi]; [apply in_or_app; auto|]);
    exists (Spec.percent (snd entry) (Report.total_revenue inv));
    (split; [reflexivity|]); by apply percent_bounds.
Qed.

Lemma percentages_bounded_witness :
  exists payment header rows,
    Report.create_payment_section Sample.busy_report = Ok payment /\
    Spec.tables payment = [header :: rows] /\
    Forall (fun row => exists p, Spec.shown_percent row = Some p /\
                                 (0 <= p)%Q /\ (p <= 100)%Q) rows.
Proof.
  destruct (percentages_bounded Sample.busy_report)
    as (payment & service & h1 & r1 & h2 & r2 & Hp & _ & Htp & _ & Hall).
  - reflexivity.
  - cbn. intros entry [<-|[<-|[<-|[]]]]; split; cbn; discriminate.
  - exists payment, h1, r1. split; [exact Hp|]. split; [exact Htp|].
    apply Forall_app in Hall. apply Hall.
Defined.

(** X17. A category whose revenue is positive and whose profit lies between
    0 and the revenue is shown with a margin between 0 and 100; a category
    whose revenue is zero or negative is shown with margin 0. *)
Theorem margins_bounded (rd : Report.ReportData) :
  exists story header rows,
    Report.create_category_section rd = Ok story /\
    Spec.tables story = [header :: rows] /\
    length rows = length (Report.category_performance (Report.sales rd)) /\
    forall i cat,
      Report.category_performance (Report.sales rd) !! i = Some cat ->
      exists row margin,
        rows !! i = Some row /\ Spec.shown_percent row = Some margin /\
        ((0 < Report.Category.AMOUNT cat)%Q ->
         (0 <= Report.Category.PROFIT cat)%Q ->
         (Report.Category.PROFIT cat <= Report.Category.AMOUNT cat)%Q ->
         (0 <= margin)%Q /\ (margin <= 100)%Q) /\
        ((Report.Category.AMOUNT cat <= 0)%Q -> margin = 0%Q).
Proof.
  destruct (category_section_run rd) as (story & header & Hrun & Htables).
  eexists story, header, _. split; [exact Hrun|]. split; [exact Htables|].
  split; [apply length_map|].
  intros i cat Hcat.
  exists (Spec.category_row cat),
    (Spec.percent (Report.Category.PROFIT cat) (Report.Category.AMOUNT cat)).
  split; [|split; [reflexivity|split]].
  - rewrite map_fmap, list_lookup_fmap, Hcat. reflexivity.
  - intros Hpos Hlo Hhi. by apply percent_bounds.
  - apply percent_not_positive.
Qed.

Lemma margins_bounded_witness :
  exists story header row margin,
    Report.create_category_section Sample.busy_report = Ok story /\
    Spec.tables story = [[header; row]] /\
    Spec.shown_percent row = Some margin /\
    (0 <= margin)%Q /\ (margin <= 100)%Q.
Proof.
  destruct (margins_bounded Sample.busy_report)
    as (story & header & rows & Hrun & Htables & Hlen & Hrows).
  destruct (Hrows 0%nat _ eq_refl) as (row & margin & Hrow & Hshown & Hbound & _).
  destruct rows as [|r [|r' rows]]; try discriminate Hlen.
  cbn in Hrow. assert (r = row) as -> by congruence.
  exists story, header, row, margin.
  split; [exact Hrun|]. split; [exact Htables|]. split; [exact Hshown|].
  apply Hbound; vm_compute; first [reflexivity|discriminate].
Defined.

(** X18. A payment method that has an amount but no entry in the counts is
    shown with 0 transactions: the section does not fail on it. *)
Theorem payment_count_defaults (rd : Report.ReportData) :
  let payments := Report.payment_breakdown (Report.invoices rd) in
  exists story header rows,
    Report.create_payment_section rd = Ok story /\
    Spec.tables story = [header :: rows] /\
    length rows = length (Report.amounts payments) /\
    forall i method amount,
      Report.amounts payments !! i = Some (method, amount) ->
      ~ In method (map fst (Report.counts payments)) ->
      exists row,
        rows !! i = Some row /\
        Spec.label row = Some [Report.Lit method] /\
        row !! 1%nat = Some [Report.FmtZ "," 0].
Proof.
  intros payments.
  destruct (payment_section_run rd) as (story & header & Hrun & Htables).
  eexists story, header, _. split; [exact Hrun|]. split; [exact Htables|].
  split; [apply length_map|].
  intros i method amount Hentry Hmissing.
  exists (Spec.breakdown_row payments (Report.total_revenue (Report.invoices rd))
                             (method, amount)).
  split; [|split; [reflexivity|]].
  - rewrite map_fmap, list_lookup_fmap. fold payments. rewrite Hentry. reflexivity.
  - unfold Spec.breakdown_row. cbn [fst lookup list_lookup].
    rewrite (dict_get_missing _ _ _ Hmissing). reflexivity.
Qed.

Lemma payment_count_defaults_witness :
  exists story header row,
    Report.create_payment_section Sample.uncounted_report = Ok story /\
    Spec.tables story = [[header; row]] /\
    row !! 1%nat = Some [Report.FmtZ "," 0].
Proof.
  destruct (payment_count_defaults Sample.uncounted_report)
    as (story & header & rows & Hrun & Htables & Hlen & Hrows).
  destruct (Hrows 0%nat "CASH" 100%Q eq_refl) as (row & Hrow & _ & Hcount);
    [intros []|].
  destruct rows as [|r [|r' rows]]; try discriminate Hlen.
  cbn in Hrow. assert (r = row) as -> by congruence.
  exists story, header, row. split; [exact Hrun|]. split; [exact Htables|exact Hcount].
Defined.

Section Story.
Import Report Spec.



End Story.





(** X21. For a config module loaded from any ini files the header reads
    TORNADO RESTAURANT and Sales Report followed by the month and year of the
    period: it depends on nothing else of the Report Data, and no setting of
    the ini files changes the two names. *)
Theorem create_header_loaded (here : string) (ini : Config.IniFile)
        (config : gmap string PyVal) (rd : Report.ReportData) :
  Config.load here ini = Ok config ->
  Report.create_header config rd =
  Ok [Report.Paragraph [Report.Lit "TORNADO RESTAURANT"] "CustomTitle";
      Report.Paragraph
        [Report.Lit "Sales Report"; Report.Lit " - ";
         Report.Strftime "%B %Y" (Report.start_date (Report.period rd))] "Subtitle";
      Report.Spacer 1 (0.3 * Report.inch)].
Proof.
  intros Hload.
  destruct (load_names here ini config Hload) as (_ & Hname & Htitle & _).
  unfold Report.create_header, getattr_str, getattr. rewrite Hname, Htitle. reflexivity.
Qed.

Lemma create_header_loaded_witness :
  Report.create_header Sample.config Sample.empty_report =
  Ok [Report.Paragraph [Report.Lit "TORNADO RESTAURANT"] "CustomTitle";
      Report.Paragraph
        [Report.Lit "Sales Report"; Report.Lit " - ";
         Report.Strftime "%B %Y" (Sample.november_2025 1)] "Subtitle";
      Report.Spacer 1 (0.3 * Report.inch)].
Proof.
  apply (create_header_loaded "." Config.defaults_ini). reflexivity.
Defined.

(** ** The settings and the locator together *)

Lemma find_latest_backup_missing_base (config : gmap string PyVal) (w : Extract.World)
      (base : string) :
  getattr_str config "BACKUP_BASE_PATH" = Ok base ->
  Extract.fs_exists w (Extract.Path_of base) = false ->
  Extract.find_latest_backup config w =
  ([Extract.FsExists (Extract.Path_of base)],
   Raise (FileNotFoundError ("Backup path not found: " ++ base))).
Proof.
  intros Hbase Hex. unfold Extract.find_latest_backup.
  unfold mbind, Extract.IO_bind, Extract.lift. rewrite Hbase.
  rewrite (io_bind_step _ _ w [] base eq_refl).
  rewrite (io_bind_step _ _ w _ _ eq_refl). rewrite Hex. cbn [negb].
  rewrite (io_bind_step _ _ w [] base eq_refl). reflexivity.
Qed.

(** The backup path a loaded config module holds is what the PATH section
    answers for backup_base_path. *)
Lemma load_base_path (here : string) (ini : Config.IniFile)
      (config : gmap string PyVal) :
  Config.load here ini = Ok config ->
  exists base,
    Config.get {| Config.parser := ini; Config.section_name := "PATH" |}
               "backup_base_path" "./backups" = Ok base /\
    getattr_str config "BACKUP_BASE_PATH" = Ok base.
Proof.
  intros Hload.
  destruct (load_names here ini config Hload) as (_ & _ & _ & _ & base & Hbase).
  exists base. split; [|unfold getattr_str, getattr; rewrite Hbase; reflexivity].
  revert Hload Hbase. unfold Config.load.
  destruct (ini !! "PATH") as [entries|] eqn:Hpath; cycle 1.
  { by rewrite (section_absent _ _ Hpath). }
  rewrite (section_present ini "PATH") by (rewrite Hpath; eauto).
  rewrite result_bind_ok.
  destruct (Config.get _ "backup_base_path" _) as [value|e]; [|discriminate].
  rewrite !result_bind_ok.
  destruct (Config.get _ "daily_reports_path" _) as [daily|e]; [|discriminate].
  rewrite !result_bind_ok.
  destruct (Config.get _ "monthly_reports_path" _) as [monthly|e]; [|discriminate].
  rewrite !result_bind_ok.
  destruct (Config.section ini "EMAIL") as [email|e]; [|discriminate].
  rewrite result_bind_ok.
  destruct (Config.get email "email_from" _) as [sender|e]; [|discriminate].
  rewrite !result_bind_ok.
  destruct (Config.get email "email_password" _) as [password|e]; [|discriminate].
  rewrite !result_bind_ok.
  destruct (Config.get email "email_to" _) as [recipient|e]; [|discriminate].
  rewrite !result_bind_ok.
  destruct (Config.get email "smtp_server" _) as [server|e]; [|discriminate].
  rewrite !result_bind_ok.
  destruct (Config.get email "smtp_port" _) as [text|e]; [|discriminate].
  rewrite !result_bind_ok.
  destruct (Config.py_int text) as [port|e]; [|discriminate].
  rewrite result_bind_ok. intros [= <-].
  repeat (rewrite lookup_insert_ne by discriminate). rewrite lookup_insert_eq.
  by intros [= ->].
Qed.

(** X22. The locator looks where the settings say: with config.py imported
    from ini files whose PATH section answers [base] for backup_base_path
    (its entry, interpolated, or the default ./backups), a missing directory
    of that name ends the search after the one existence check, with
    FileNotFoundError naming the path as the settings give it. *)
Theorem locator_uses_configured_path (here : string) (ini : Config.IniFile)
        (config : gmap string PyVal) (base : string) (w : Extract.World) :
  Config.load here ini = Ok config ->
  Config.get {| Config.parser := ini; Config.section_name := "PATH" |}
             "backup_base_path" "./backups" = Ok base ->
  Extract.fs_exists w (Extract.Path_of base) = false ->
  Extract.find_latest_backup config w =
  ([Extract.FsExists (Extract.Path_of base)],
   Raise (FileNotFoundError ("Backup path not found: " ++ base))).
Proof.
  intros Hload Hget Hex.
  apply find_latest_backup_missing_base; [|exact Hex].
  destruct (load_base_path here ini config Hload) as (value & Hvalue & Hattr).
  rewrite Hget in Hvalue. injection Hvalue as <-. exact Hattr.
Qed.

Lemma locator_uses_configured_path_witness :
  Extract.find_latest_backup Sample.interpolated_config Sample.world =
  ([Extract.FsExists ["/"; "srv"; "pos"]],
   Raise (FileNotFoundError "Backup path not found: /srv/pos")).
Proof.
  exact (locator_uses_configured_path "." Sample.interpolated_ini
           Sample.interpolated_config "/srv/pos" Sample.world
           eq_refl eq_refl eq_refl).
Defined.
